(** * dcs_wrapper.py: extraction of root strings from the DCS sentence corpus

    A shallow embedding of [src/dcs_wrapper.py] (Python 3 reading of the
    script) and the properties of it that the specification states.

    What is modelled
    - Python strings are sequences of code points ([pystr]).
    - The values [ujson.load] builds are the JSON fragment of Python's
      values ([pyval]); a [dict] is kept as its items in insertion order
      (iterating a dict visits its keys in that order).
    - Subscription, iteration, [in], [+], [.startswith] and [str] follow
      Python's dynamic typing: an operand of the wrong type raises.
    - The script's globals are the output stream [out] and the root
      accumulator [s], which is unbound until line 38 first runs.
    - The output stream is the sequence of the strings [out.write] has
      accepted; the file's text is their concatenation. The stream
      encodes to UTF-8, so a string that holds a surrogate code point is
      refused with [UnicodeEncodeError].

    What is not modelled: opening and decoding files, and the timing
    messages printed on standard output. The imported
    [sanscript.transliterate] is a parameter of the pipeline ([Runtime]);
    module [Sanscript] models it from the specification for the two
    properties that are about the transliterator itself. *)

From Stdlib Require Import String Ascii DecimalString.
From Stdlib Require Import List NArith ZArith Bool Arith Lia.
Import ListNotations.

(* ------------------------------------------------------------------ *)
(** ** Python strings *)

Definition pystr := list N.

(** An ASCII literal as a Python string. *)
Definition lit (t : string) : pystr :=
  map N_of_ascii (list_ascii_of_string t).
Arguments lit t%_string.

Fixpoint str_eqb (a b : pystr) : bool :=
  match a, b with
  | [], [] => true
  | x :: a', y :: b' => N.eqb x y && str_eqb a' b'
  | _, _ => false
  end.

(** [data.startswith(prefix)] *)
Fixpoint startswith (data prefix : pystr) {struct prefix} : bool :=
  match prefix, data with
  | [], _ => true
  | p :: prefix', c :: data' => N.eqb p c && startswith data' prefix'
  | _ :: _, [] => false
  end.

(** [sub in data] for two strings: [sub] occurs in [data]. *)
Fixpoint is_substring (sub data : pystr) : bool :=
  startswith data sub ||
  match data with
  | [] => false
  | _ :: data' => is_substring sub data'
  end.

Definition SPACE : N := 32.
Definition NEWLINE : N := 10.

(** [data.split()] restricted to the space character: the maximal
    space-free runs of [data], in order. [cur] is the run being read,
    most recent character first. *)
Fixpoint split_spaces_from (cur : pystr) (data : pystr) : list pystr :=
  match data with
  | [] => match cur with [] => [] | _ => [rev cur] end
  | c :: data' =>
      if N.eqb c SPACE
      then match cur with
           | [] => split_spaces_from [] data'
           | _ => rev cur :: split_spaces_from [] data'
           end
      else split_spaces_from (c :: cur) data'
  end.

Definition split_spaces (data : pystr) : list pystr :=
  split_spaces_from [] data.

(* ------------------------------------------------------------------ *)
(** ** The transliterator *)

Module Sanscript.

(** The two scheme identifiers the script passes,
    [sanscript.IAST] and [sanscript.SLP1]. *)
Inductive scheme : Type := IAST | SLP1.

Definition cluster := pystr.

(** A scheme's character-cluster table; clusters at the same position of
    two tables denote the same sound. *)
Definition tables := scheme -> list cluster.

Definition scheme_map (T : tables) (_from _to : scheme)
  : list (cluster * cluster) :=
  combine (T _from) (T _to).

(** The entry of [m] with the longest non-empty source cluster that
    [data] starts with; among equally long ones the earliest. *)
Fixpoint longest_match (m : list (cluster * cluster)) (data : pystr)
  : option (cluster * cluster) :=
  match m with
  | [] => None
  | (k, v) :: m' =>
      let later := longest_match m' data in
      if startswith data k && negb (Nat.eqb (length k) 0)
      then match later with
           | Some (k', v') =>
               if Nat.ltb (length k) (length k') then later else Some (k, v)
           | None => Some (k, v)
           end
      else later
  end.

Inductive token : Type :=
| Mapped (src dst : cluster)
| Passed (c : N).

Definition render (t : token) : pystr :=
  match t with
  | Mapped _ dst => dst
  | Passed c => [c]
  end.

(** One pass over [data], left to right. [skip] counts the characters
    still covered by the cluster recognised last. *)
Fixpoint tokenize (m : list (cluster * cluster)) (skip : nat) (data : pystr)
  : list token :=
  match data with
  | [] => []
  | c :: rest =>
      match skip with
      | S n => tokenize m n rest
      | O =>
          match longest_match m data with
          | Some (k, v) => Mapped k v :: tokenize m (length k - 1) rest
          | None => Passed c :: tokenize m 0 rest
          end
      end
  end.

(** Modelled from the spec: [sanscript.transliterate] belongs to the
    imported package [indic_transliteration], whose code and tables are
    not part of the source tree; only the call is. The specification
    (section 4.4) describes it as a deterministic, pure function of
    (string, source scheme, target scheme) that maps each recognised
    character/cluster sequence to the target scheme's equivalent, token
    by token, and leaves unrecognised sequences unchanged, over a
    pluggable mapping from scheme identifier to cluster table. The tables
    are a parameter; recognition is by longest match. *)
Definition transliterate (T : tables) (data : pystr) (_from _to : scheme)
  : pystr :=
  concat (map render (tokenize (scheme_map T _from _to) 0 data)).



(** No cluster of [m] starts at any position of [data]. *)
Fixpoint unmapped (m : list (cluster * cluster)) (data : pystr) : bool :=
  match data with
  | [] => true
  | _ :: rest =>
      match longest_match m data with
      | None => unmapped m rest
      | Some _ => false
      end
  end.


End Sanscript.

(* ------------------------------------------------------------------ *)
(** ** Python values and exceptions *)

#[warnings="-register-all"]
Inductive pyval : Type :=
| PNone
| PBool (b : bool)
| PInt (n : Z)
| PFloat (mantissa exponent : Z)
| PStr (t : pystr)
| PList (items : list pyval)
| PDict (items : list (pystr * pyval)).

Inductive exn : Type :=
| KeyError (key : pystr)
| TypeError
| AttributeError
| NameError (name : pystr)
| UnicodeEncodeError.

Inductive result (A : Type) : Type :=
| Ok (a : A)
| Raise (e : exn).
Arguments Ok {A} a.
Arguments Raise {A} e.

(** What the script imports and the model does not define. *)
Class Runtime : Type := {
  (** [sanscript.transliterate(data, _from, _to)] *)
  sanscript_transliterate :
    pystr -> Sanscript.scheme -> Sanscript.scheme -> pystr;
  (** [repr(v)], which [str] falls back to for floats, lists and dicts *)
  py_repr : pyval -> pystr
}.

(** [d[key]] on the items of a dict. The loader builds dicts with
    pairwise distinct keys; were a key repeated, its first item is the
    one found. *)
Fixpoint dict_get (items : list (pystr * pyval)) (key : pystr)
  : option pyval :=
  match items with
  | [] => None
  | (k, v) :: items' => if str_eqb k key then Some v else dict_get items' key
  end.

(** [v[key]] for a string [key]. *)
Definition py_getitem (v : pyval) (key : pystr) : result pyval :=
  match v with
  | PDict items =>
      match dict_get items key with
      | Some x => Ok x
      | None => Raise (KeyError key)
      end
  | _ => Raise TypeError
  end.

(** [key in v] for a string [key]. *)
Definition py_contains (key : pystr) (v : pyval) : result bool :=
  match v with
  | PDict items =>
      Ok (match dict_get items key with Some _ => true | None => false end)
  | PList items =>
      Ok (existsb (fun x => match x with
                            | PStr t => str_eqb t key
                            | _ => false
                            end) items)
  | PStr t => Ok (is_substring key t)
  | _ => Raise TypeError
  end.

(** The sequence [for x in v] visits. *)
Definition py_iter (v : pyval) : result (list pyval) :=
  match v with
  | PList items => Ok items
  | PDict items => Ok (map (fun kv => PStr (fst kv)) items)
  | PStr t => Ok (map (fun c => PStr [c]) t)
  | _ => Raise TypeError
  end.

(** [v.startswith(prefix)] *)
Definition py_startswith (v : pyval) (prefix : pystr) : result bool :=
  match v with
  | PStr t => Ok (startswith t prefix)
  | _ => Raise AttributeError
  end.

(** [v + t] and [t + v] for a string [t]. *)
Definition py_add_str (v : pyval) (t : pystr) : result pystr :=
  match v with
  | PStr a => Ok (a ++ t)
  | _ => Raise TypeError
  end.

Definition py_str_add (t : pystr) (v : pyval) : result pystr :=
  match v with
  | PStr a => Ok (t ++ a)
  | _ => Raise TypeError
  end.

(** [str(v)] *)
Definition py_str `{Runtime} (v : pyval) : pystr :=
  match v with
  | PNone => lit "None"
  | PBool true => lit "True"
  | PBool false => lit "False"
  | PInt n => lit (NilZero.string_of_int (Z.to_int n))
  | PStr t => t
  | _ => py_repr v
  end.

(* ------------------------------------------------------------------ *)
(** ** The script's state and its commands *)

Record state : Type := mkState {
  st_out : list pystr;      (** the arguments of [out.write], in order *)
  st_s : option pystr       (** the global [s]; [None] while unbound *)
}.

Definition M (A : Type) : Type := state -> result A * state.

Definition ret {A} (a : A) : M A := fun st => (Ok a, st).

Definition bind {A B} (c : M A) (k : A -> M B) : M B :=
  fun st =>
    match c st with
    | (Ok a, st') => k a st'
    | (Raise e, st') => (Raise e, st')
    end.

Definition lift {A} (r : result A) : M A := fun st => (r, st).

Declare Scope py_scope.
Delimit Scope py_scope with py.
Notation "x <- c ;; k" := (bind c (fun x => k))
  (at level 61, c at next level, right associativity) : py_scope.
Notation "c ;; k" := (bind c (fun _ => k))
  (at level 61, right associativity) : py_scope.
Open Scope py_scope.

(** The code points U+D800 to U+DFFF, which UTF-8 cannot encode. *)
Definition is_surrogate (c : N) : bool :=
  N.leb 55296 c && N.leb c 57343.

Definition encodable (t : pystr) : bool :=
  negb (existsb is_surrogate t).

(** [out.write(t)] on the stream of line 33: [t] is encoded first, then
    the bytes are written. *)
Definition write (t : pystr) : M unit :=
  fun st =>
    if encodable t
    then (Ok tt, mkState (st_out st ++ [t]) (st_s st))
    else (Raise UnicodeEncodeError, st).

(** [s = t] *)
Definition set_s (t : pystr) : M unit :=
  fun st => (Ok tt, mkState (st_out st) (Some t)).

(** Reading the global [s]. *)
Definition get_s : M pystr :=
  fun st =>
    match st_s st with
    | Some t => (Ok t, st)
    | None => (Raise (NameError (lit "s")), st)
    end.

(** [for x in xs: f x] *)
Fixpoint for_ {A} (xs : list A) (f : A -> M unit) : M unit :=
  match xs with
  | [] => ret tt
  | x :: xs' => f x ;; for_ xs' f
  end.

(* ------------------------------------------------------------------ *)
(** ** iter_sentences (lines 15-25) *)

Definition k_id : pystr := lit "_id".
Definition k_docs : pystr := lit "docs".
Definition k_dcsId : pystr := lit "dcsId".
Definition k_text : pystr := lit "text".
Definition k_decomposition : pystr := lit "dcsAnalysisDecomposition".
Definition k_root : pystr := lit "root".
Definition sentence_prefix : pystr := lit "sentence_".

(** [doc["_id"].startswith("sentence_")] *)
Definition sentence_test (doc : pyval) : result bool :=
  match py_getitem doc k_id with
  | Ok v => py_startswith v sentence_prefix
  | Raise e => Raise e
  end.

(** The loop of the generator over [doc_list]: the documents it yields,
    in order, and the exception that ends it, if one does. *)
Fixpoint yield_sentences (doc_list : list pyval) : list pyval * option exn :=
  match doc_list with
  | [] => ([], None)
  | doc :: rest =>
      match sentence_test doc with
      | Raise e => ([], Some e)
      | Ok true =>
          let (ys, e) := yield_sentences rest in (doc :: ys, e)
      | Ok false => yield_sentences rest
      end
  end.

(** The generator on the value [ujson.load(f)] returned. *)
Definition iter_sentences (loaded : pyval) : list pyval * option exn :=
  match py_getitem loaded k_docs with
  | Raise e => ([], Some e)
  | Ok docs =>
      match py_iter docs with
      | Raise e => ([], Some e)
      | Ok doc_list => yield_sentences doc_list
      end
  end.

(* ------------------------------------------------------------------ *)
(** ** The main loop (lines 33-44) *)

Section MainLoop.
Context `{RT : Runtime}.

(** Lines 41-42, for one [group]; [s += e] reads [s] before it
    evaluates [e]. *)
Definition add_root (group : pyval) : M unit :=
  has_root <- lift (py_contains k_root group) ;;
  if has_root : bool
  then cur <- get_s ;;
       root <- lift (py_getitem group k_root) ;;
       piece <- lift (py_str_add [SPACE] root) ;;
       set_s (cur ++ piece)
  else ret tt.

(** Lines 39-42: the two nested loops over the decomposition. *)
Definition extract_roots (decomposition : pyval) : M unit :=
  decomps <- lift (py_iter decomposition) ;;
  for_ decomps (fun decomp =>
    groups <- lift (py_iter decomp) ;;
    for_ groups add_root).

(** Lines 35-44: the body of the loop for one yielded [doc]. *)
Definition loop_body (doc : pyval) : M unit :=
  has_decomposition <- lift (py_contains k_decomposition doc) ;;
  (if has_decomposition : bool
   then dcsId <- lift (py_getitem doc k_dcsId) ;;
        write (py_str dcsId ++ lit ", ") ;;
        text <- lift (py_getitem doc k_text) ;;
        field <- lift (py_add_str text (lit ", ")) ;;
        write field ;;
        set_s [] ;;
        decomposition <- lift (py_getitem doc k_decomposition) ;;
        extract_roots decomposition
   else ret tt) ;;
  cur <- get_s ;;
  write (sanscript_transliterate cur Sanscript.IAST Sanscript.SLP1
           ++ [NEWLINE]).

(** [for i, doc in enumerate(g): ...] over a generator [g], given as
    the documents it yields and the exception that ends it, if any. The
    generator and the loop body share no state, so all that can be
    observed of their interleaving is that the bodies of the yielded
    documents have run when the generator's exception surfaces, and
    that a body's exception ends the loop before the generator is asked
    again. *)
Definition consume (g : list pyval * option exn) : M unit :=
  for_ (fst g) loop_body ;;
  match snd g with
  | Some e => lift (Raise e)
  | None => ret tt
  end.

(** The loop over the documents of [doc_list]. *)
Definition process (doc_list : list pyval) : M unit :=
  consume (yield_sentences doc_list).

Definition main_loop (loaded : pyval) : M unit :=
  consume (iter_sentences loaded).

(** The state in which the loop starts: nothing written, [s] unbound. *)
Definition initial : state := mkState [] None.

Definition run (loaded : pyval) : result unit * state :=
  main_loop loaded initial.

(** The content of [dcs_sentences.json]: an object whose key ["docs"]
    holds the array of documents. *)
Definition corpus (doc_list : list pyval) : pyval :=
  PDict [(k_docs, PList doc_list)].

(** The text of the output file. *)
Definition file_text (st : state) : pystr := concat (st_out st).

(** The lines the loop has written: its writes that end a line. Every
    other write of the loop ends in the field separator. *)
Definition ends_line (t : pystr) : bool :=
  match rev t with
  | c :: _ => N.eqb c NEWLINE
  | [] => false
  end.

Definition lines_written (st : state) : nat :=
  length (filter ends_line (st_out st)).

(** The number of newline characters of a string; for the text of the
    file, the number of its lines. *)
Definition newlines (t : pystr) : nat :=
  length (filter (fun c => N.eqb c NEWLINE) t).

End MainLoop.

(* ------------------------------------------------------------------ *)
(** ** Notions the statements use *)

(** The documents the generator yields. *)
Definition is_sentence (doc : pyval) : bool :=
  match sentence_test doc with
  | Ok true => true
  | _ => false
  end.

(** The call of line 43. *)
Definition to_slp1 `{Runtime} (t : pystr) : pystr :=
  sanscript_transliterate t Sanscript.IAST Sanscript.SLP1.

(** [doc] is an object whose ["_id"] is a string. *)
Definition has_string_id (doc : pyval) : bool :=
  match doc with
  | PDict items =>
      match dict_get items k_id with
      | Some (PStr _) => true
      | _ => false
      end
  | _ => false
  end.

(** [doc] is an object whose ["_id"] is a string that begins with
    [sentence_]: its first nine characters are those of that word. *)
Definition has_sentence_id (doc : pyval) : bool :=
  match doc with
  | PDict items =>
      match dict_get items k_id with
      | Some (PStr t) => str_eqb (firstn 9 t) (lit "sentence_")
      | _ => false
      end
  | _ => false
  end.

(** No newline in the root of [group], if it has one that is a string;
    in any root string met by the loops of lines 39-40 over
    [decomposition]; in what lines 36-42 take from [doc]: its ["dcsId"]
    as [str] renders it, its ["text"] and its root strings. *)
Definition root_newline_free (group : pyval) : bool :=
  match py_getitem group k_root with
  | Ok (PStr root) => Nat.eqb (newlines root) 0
  | _ => true
  end.

Definition roots_newline_free (decomposition : pyval) : bool :=
  match py_iter decomposition with
  | Ok decomps =>
      forallb (fun decomp =>
                 match py_iter decomp with
                 | Ok groups => forallb root_newline_free groups
                 | Raise _ => true
                 end) decomps
  | Raise _ => true
  end.

Definition doc_newline_free `{Runtime} (doc : pyval) : bool :=
  match py_getitem doc k_dcsId with
  | Ok dcsId => Nat.eqb (newlines (py_str dcsId)) 0
  | Raise _ => true
  end &&
  match py_getitem doc k_text with
  | Ok (PStr text) => Nat.eqb (newlines text) 0
  | _ => true
  end &&
  match py_getitem doc k_decomposition with
  | Ok decomposition => roots_newline_free decomposition
  | Raise _ => true
  end.

(** [s], where bound, holds no newline. *)
Definition s_clean (st : state) : Prop :=
  forall a, st_s st = Some a -> newlines a = 0.

(** The transliterator puts no newline where its argument has none. *)
Definition adds_no_newline `{Runtime} : Prop :=
  forall t, newlines t = 0 -> newlines (to_slp1 t) = 0.

(** [NameError] is not what was raised. *)
Definition no_name_error {A} (r : result A) : Prop :=
  match r with
  | Raise (NameError _) => False
  | _ => True
  end.

(** A decomposition of the documented shape: a sequence of groups, each a
    sequence of token-mappings. *)
Definition token_mapping : Type := list (pystr * pyval).

Definition decomposition_value (groups : list (list token_mapping)) : pyval :=
  PList (map (fun group => PList (map PDict group)) groups).

Definition has_root (tok : token_mapping) : bool :=
  match dict_get tok k_root with
  | Some _ => true
  | None => false
  end.

(** The value under ["root"], where there is one, is a string. *)
Definition root_is_string (tok : token_mapping) : bool :=
  match dict_get tok k_root with
  | Some (PStr _) | None => true
  | Some _ => false
  end.

Definition token_roots (tok : token_mapping) : list pystr :=
  match dict_get tok k_root with
  | Some (PStr root) => [root]
  | _ => []
  end.

(** The root values of a decomposition, outer sequence first. *)
Definition root_strings (groups : list (list token_mapping)) : list pystr :=
  flat_map (flat_map token_roots) groups.

(** The number of token-mappings that have a ["root"] key. *)
Definition root_bearing (groups : list (list token_mapping)) : nat :=
  length (filter has_root (concat groups)).

Definition roots_are_strings (groups : list (list token_mapping)) : bool :=
  forallb (forallb root_is_string) groups.

(** Each root preceded by one space. *)
Definition spaced (roots : list pystr) : pystr :=
  concat (map (cons SPACE) roots).

(** A word: not empty and without a space. *)
Definition is_word (t : pystr) : bool :=
  negb (Nat.eqb (length t) 0) && forallb (fun c => negb (N.eqb c SPACE)) t.



(* ------------------------------------------------------------------ *)
(** ** Sample data for the examples *)

(** The letters of IAST and of SLP1 that the examples need, sound by
    sound in the same order (the long vowels, the retroflex and palatal
    letters, anusvara and visarga are single code points in IAST). *)
Definition sample_tables : Sanscript.tables :=
  fun sch =>
    match sch with
    | Sanscript.IAST =>
        [lit "a"; [257%N]; lit "i"; [299%N]; lit "u"; [363%N]; [7771%N];
         lit "e"; lit "ai"; lit "o"; lit "au"; [7747%N]; [7717%N];
         lit "k"; lit "kh"; lit "g"; lit "gh"; [7749%N];
         lit "c"; lit "ch"; lit "j"; lit "jh"; [241%N];
         [7789%N]; [7789%N] ++ lit "h"; [7693%N]; [7693%N] ++ lit "h";
         [7751%N];
         lit "t"; lit "th"; lit "d"; lit "dh"; lit "n";
         lit "p"; lit "ph"; lit "b"; lit "bh"; lit "m";
         lit "y"; lit "r"; lit "l"; lit "v";
         [347%N]; [7779%N]; lit "s"; lit "h"]
    | Sanscript.SLP1 =>
        map (fun c => [N_of_ascii c])
            (list_ascii_of_string
               "aAiIuUfeEoOMHkKgGNcCjJYwWqQRtTdDnpPbBmyrlvSzsh")
    end.

(** A runtime for the examples; none of them converts a float, a list or
    a dict to a string. *)
Definition sample_runtime : Runtime :=
  {| sanscript_transliterate := Sanscript.transliterate sample_tables;
     py_repr := fun _ => lit "..." |}.

(** The text [rāmaḥ gacchati]. *)
Definition text_1 : pystr :=
  lit "r" ++ [257%N] ++ lit "ma" ++ [7717%N] ++ lit " gacchati".

(** The document of end-to-end scenario 1. *)
Definition groups_1 : list (list token_mapping) :=
  [[[(k_root, PStr (lit "gam"))]]].

Definition items_1 : list (pystr * pyval) :=
  [(k_id, PStr (lit "sentence_1"));
   (k_dcsId, PInt 1);
   (k_text, PStr text_1);
   (k_decomposition, decomposition_value groups_1)].

Definition doc_1 : pyval := PDict items_1.

Definition scenario_1 : pyval := corpus [doc_1].

(** The line the specification gives for scenario 1,
    [1, rāmaḥ gacchati, gam]. *)
Definition scenario_1_claimed_line : pystr :=
  lit "1, " ++ text_1 ++ lit ", gam" ++ [NEWLINE].

(** A sentence document without a decomposition. *)
Definition items_bare : list (pystr * pyval) :=
  [(k_id, PStr (lit "sentence_2"));
   (k_dcsId, PInt 2);
   (k_text, PStr (lit "tat"))].

Definition doc_bare : pyval := PDict items_bare.

(** A sentence document with two groups; one of its three
    token-mappings has no root. *)
Definition groups_3 : list (list token_mapping) :=
  [[[(k_root, PStr (lit "r" ++ [257%N] ++ lit "ma"))];
    [(lit "lemma", PStr (lit "ca"))]];
   [[(k_root, PStr (lit "gam"))]]].

Definition items_3 : list (pystr * pyval) :=
  [(k_id, PStr (lit "sentence_3"));
   (k_dcsId, PInt 3);
   (k_text, PStr text_1);
   (k_decomposition, decomposition_value groups_3)].

(** A document that is not a sentence. *)
Definition items_meta : list (pystr * pyval) :=
  [(k_id, PStr (lit "meta_1"))].

Definition doc_meta : pyval := PDict items_meta.

(** A document without an identifier. *)
Definition items_anonymous : list (pystr * pyval) :=
  [(k_text, PStr (lit "tat"))].

Definition doc_anonymous : pyval := PDict items_anonymous.

(* ------------------------------------------------------------------ *)
(** ** Well-formed corpora *)

(** The fields of a sentence document that the loop reads. *)
Record sentence_record : Type := mkRecord {
  rec_dcsId : pyval;
  rec_text : pystr;
  rec_groups : list (list token_mapping)
}.

(** The strings that lines 36, 37 and 44 write for such a document, and
    the text they make up. *)
Definition record_writes `{Runtime} (r : sentence_record) : list pystr :=
  [py_str (rec_dcsId r) ++ lit ", ";
   rec_text r ++ lit ", ";
   to_slp1 (spaced (root_strings (rec_groups r))) ++ [NEWLINE]].

Definition record_line `{Runtime} (r : sentence_record) : pystr :=
  concat (record_writes r).

(** The stream accepts the three strings. *)
Definition record_encodable `{Runtime} (r : sentence_record) : bool :=
  forallb encodable (record_writes r).

(** [doc] is a sentence document with the fields of [r], its text a
    string and its decomposition of the documented shape. *)
Definition holds (doc : pyval) (r : sentence_record) : Prop :=
  exists items,
    doc = PDict items /\
    sentence_test doc = Ok true /\
    dict_get items k_dcsId = Some (rec_dcsId r) /\
    dict_get items k_text = Some (PStr (rec_text r)) /\
    dict_get items k_decomposition
    = Some (decomposition_value (rec_groups r)) /\
    roots_are_strings (rec_groups r) = true.

(** A list of documents, each one rejected by the filter or a
    well-formed sentence document, and the records of the latter. *)
Inductive reads : list pyval -> list sentence_record -> Prop :=
| reads_nil : reads [] []
| reads_other doc docs rs :
    sentence_test doc = Ok false -> reads docs rs -> reads (doc :: docs) rs
| reads_sentence doc r docs rs :
    holds doc r -> reads docs rs -> reads (doc :: docs) (r :: rs).

(** A sentence document without a decomposition. *)
Definition is_bare (doc : pyval) : bool :=
  match doc with
  | PDict items =>
      is_sentence doc &&
      match dict_get items k_decomposition with
      | None => true
      | Some _ => false
      end
  | _ => false
  end.

Definition is_string (v : pyval) : bool :=
  match v with
  | PStr _ => true
  | _ => false
  end.

Definition is_dict (v : pyval) : bool :=
  match v with
  | PDict _ => true
  | _ => false
  end.

Definition is_list (v : pyval) : bool :=
  match v with
  | PList _ => true
  | _ => false
  end.

(** The values whose iteration visits nothing. *)
Definition is_empty_iterable (v : pyval) : bool :=
  match v with
  | PList [] | PStr [] | PDict [] => true
  | _ => false
  end.

(** Further sample documents: a sentence document without ["text"], one
    whose second root is [null], and one whose ["_id"] is a number. *)
Definition record_1 : sentence_record := mkRecord (PInt 1) text_1 groups_1.

Definition record_3 : sentence_record := mkRecord (PInt 3) text_1 groups_3.

Definition items_no_text : list (pystr * pyval) :=
  [(k_id, PStr (lit "sentence_4"));
   (k_dcsId, PInt 4);
   (k_decomposition, decomposition_value groups_1)].

Definition token_null_root : token_mapping := [(k_root, PNone)].

Definition items_null_root : list (pystr * pyval) :=
  [(k_id, PStr (lit "sentence_5"));
   (k_dcsId, PInt 5);
   (k_text, PStr (lit "tat"));
   (k_decomposition,
    decomposition_value
      ([] ++ ([[(k_root, PStr (lit "gam"))]] ++ token_null_root :: [])
          :: groups_1))].

Definition doc_numbered : pyval := PDict [(k_id, PInt 7)].

(** A sentence document whose text has three lines, and a decomposition
    whose one root is two words. *)
Definition doc_three_lines : pyval :=
  PDict [(k_id, PStr (lit "sentence_6"));
         (k_dcsId, PInt 6);
         (k_text, PStr (lit "a" ++ [NEWLINE] ++ lit "b" ++ [NEWLINE]
                          ++ lit "c"));
         (k_decomposition, decomposition_value groups_1)].

Definition groups_two_words : list (list token_mapping) :=
  [[[(k_root, PStr (lit "a b"))]]].

(** A sentence document whose identifier is the string of the lone
    surrogate U+D800. *)
Definition items_surrogate : list (pystr * pyval) :=
  [(k_id, PStr (lit "sentence_7"));
   (k_dcsId, PStr [55296%N]);
   (k_text, PStr (lit "tat"));
   (k_decomposition, decomposition_value groups_1)].

(* ------------------------------------------------------------------ *)
(** ** Strings: basic facts *)

Lemma str_eqb_eq (a b : pystr) : str_eqb a b = true <-> a = b.
Proof.
  revert b; induction a as [|x a IH]; intros [|y b]; simpl;
    try (split; [discriminate | discriminate]); try tauto.
  rewrite andb_true_iff, N.eqb_eq, IH.
  split; [intros [-> ->]; reflexivity | intros H; inversion H; auto].
Qed.





(* ------------------------------------------------------------------ *)
(** ** The transliterator: tokens and round trip *)

Section SanscriptFacts.
Import Sanscript.

Lemma longest_match_sound m data k v :
  longest_match m data = Some (k, v) ->
  In (k, v) m /\ startswith data k = true /\ k <> [].
Proof.
  induction m as [|[k0 v0] m IH]; simpl; [discriminate|].
  destruct (startswith data k0 && negb (length k0 =? 0)) eqn:E.
  - apply andb_true_iff in E as [Es En].
    destruct (longest_match m data) as [[k' v']|] eqn:L.
    + destruct (length k0 <? length k').
      * intros H. destruct (IH H) as (? & ? & ?); auto.
      * intros H; inversion H; subst. repeat split; auto.
        intros ->; discriminate.
    + intros H; inversion H; subst. repeat split; auto.
      intros ->; discriminate.
  - intros H. destruct (IH H) as (? & ? & ?); auto.
Qed.













End SanscriptFacts.


Lemma tokenize_unmapped m data :
  Sanscript.unmapped m data = true ->
  Sanscript.tokenize m 0 data = map Sanscript.Passed data.
Proof.
  induction data as [|c rest IH]; [reflexivity|].
  simpl. destruct (Sanscript.longest_match m (c :: rest)); [discriminate|].
  intros H. now rewrite IH.
Qed.

(** C6. Where no cluster of the mapping starts, the scanner emits the
    character it stands on and moves one character on; a string in which
    no cluster starts anywhere is returned as it is. The transliterator
    is a total function: there is no error outcome. *)
Theorem transliterate_unmapped_identity (T : Sanscript.tables)
    (a b : Sanscript.scheme) :
  (forall c rest,
      Sanscript.longest_match (Sanscript.scheme_map T a b) (c :: rest) = None ->
      Sanscript.transliterate T (c :: rest) a b
      = c :: Sanscript.transliterate T rest a b) /\
  (forall data,
      Sanscript.unmapped (Sanscript.scheme_map T a b) data = true ->
      Sanscript.transliterate T data a b = data).
Proof.
  split.
  - intros c rest L. unfold Sanscript.transliterate. simpl. rewrite L.
    reflexivity.
  - intros data H. unfold Sanscript.transliterate.
    rewrite (tokenize_unmapped _ _ H), map_map. simpl.
    induction data as [|c rest IH]; simpl; [reflexivity|].
    f_equal. apply IH. simpl in H.
    destruct (Sanscript.longest_match _ (c :: rest)); [discriminate|exact H].
Qed.

(* ------------------------------------------------------------------ *)
(** ** The loop: how it unfolds *)

Section PipelineFacts.
Context `{RT : Runtime}.

(** An invariant of the body of a [for] loop is an invariant of the
    loop; a property that holds of normal return and of every outcome of
    the body holds of the outcome of the loop. *)
Lemma for_inv (I : state -> Prop) (Q : result unit -> Prop) {A}
    (f : A -> M unit) :
  Q (Ok tt) ->
  (forall x st, I st -> I (snd (f x st)) /\ Q (fst (f x st))) ->
  forall xs st, I st -> I (snd (for_ xs f st)) /\ Q (fst (for_ xs f st)).
Proof.
  intros HQ Hf xs. induction xs as [|x xs IH]; intros st HI; simpl.
  - split; [exact HI | exact HQ].
  - unfold bind. destruct (Hf x st HI) as [HI' HQ'].
    destruct (f x st) as [[u|e] st']; simpl in *.
    + apply IH; exact HI'.
    + split; [exact HI' | exact HQ'].
Qed.

(** The loop consumes the generator one document at a time: the filter
    runs on a document, then the body if it passed, then the rest. *)
Lemma process_cons doc rest st :
  process (doc :: rest) st =
  match sentence_test doc with
  | Raise e => (Raise e, st)
  | Ok false => process rest st
  | Ok true =>
      match loop_body doc st with
      | (Ok _, st') => process rest st'
      | (Raise e, st') => (Raise e, st')
      end
  end.
Proof.
  unfold process, consume. simpl.
  destruct (sentence_test doc) as [[|]|e]; simpl; try reflexivity.
  destruct (yield_sentences rest) as [ys ended]; simpl.
  unfold bind. destruct (loop_body doc st) as [[u|e] st']; reflexivity.
Qed.

Lemma process_app pre post st :
  process (pre ++ post) st =
  match process pre st with
  | (Ok _, st') => process post st'
  | (Raise e, st') => (Raise e, st')
  end.
Proof.
  revert st; induction pre as [|doc pre IH]; intros st.
  - reflexivity.
  - simpl app. rewrite !process_cons.
    destruct (sentence_test doc) as [[|]|e]; auto.
    destruct (loop_body doc st) as [[u|e] st']; auto.
Qed.

Lemma run_corpus doc_list : run (corpus doc_list) = process doc_list initial.
Proof. reflexivity. Qed.

(** Other top-level keys of the loaded object are never looked at. *)
Lemma run_loaded items doc_list :
  dict_get items k_docs = Some (PList doc_list) ->
  run (PDict items) = run (corpus doc_list).
Proof.
  intros H. unfold run, main_loop, iter_sentences, corpus. simpl.
  rewrite H. reflexivity.
Qed.

(** Documents the filter rejects leave the state as it is. *)
Lemma process_skipped pre st :
  Forall (fun d => sentence_test d = Ok false) pre ->
  process pre st = (Ok tt, st).
Proof.
  induction 1 as [|d pre Hd _ IH]; [reflexivity|].
  rewrite process_cons, Hd. exact IH.
Qed.

(* ------------------------------------------------------------------ *)
(** ** The filter *)

Lemma sentence_test_no_name_error doc : no_name_error (sentence_test doc).
Proof.
  unfold sentence_test, py_getitem, py_startswith.
  destruct doc; simpl; auto.
  destruct (dict_get items k_id) as [[]|]; simpl; auto.
Qed.

(* ------------------------------------------------------------------ *)
(** ** The body of the loop *)

Lemma py_contains_nne key v : no_name_error (py_contains key v).
Proof. destruct v; simpl; exact I. Qed.

Lemma py_getitem_nne v key : no_name_error (py_getitem v key).
Proof.
  destruct v; simpl; try exact I. destruct (dict_get items key); exact I.
Qed.

Lemma py_iter_nne v : no_name_error (py_iter v).
Proof. destruct v; simpl; exact I. Qed.

Lemma py_str_add_nne t v : no_name_error (py_str_add t v).
Proof. destruct v; simpl; exact I. Qed.

Lemma py_add_str_nne v t : no_name_error (py_add_str v t).
Proof. destruct v; simpl; exact I. Qed.

(** Case analysis on the outcome of one of the operations above. *)
Ltac pure_case r lem :=
  let H := fresh "Hnne" in
  pose proof lem as H;
  destruct r; simpl in H |- *.

Lemma add_root_out group st :
  st_out (snd (add_root group st)) = st_out st.
Proof.
  unfold add_root, bind, lift, get_s, set_s, ret.
  destruct (py_contains k_root group) as [[|]|]; simpl; auto.
  destruct (st_s st); simpl; auto.
  destruct (py_getitem group k_root); simpl; auto.
  destruct (py_str_add [SPACE] a); simpl; auto.
Qed.

Lemma extract_roots_out decomposition st :
  st_out (snd (extract_roots decomposition st)) = st_out st.
Proof.
  unfold extract_roots, bind, lift.
  destruct (py_iter decomposition) as [decomps|]; simpl; auto.
  apply (for_inv (fun st' => st_out st' = st_out st) (fun _ => True));
    auto.
  intros decomp st1 H1. split; auto.
  destruct (py_iter decomp) as [groups|]; simpl; auto.
  apply (for_inv (fun st' => st_out st' = st_out st) (fun _ => True));
    auto.
  intros group st2 H2. split; auto. rewrite add_root_out. exact H2.
Qed.

Lemma add_root_bound group st :
  st_s st <> None ->
  st_s (snd (add_root group st)) <> None /\
  no_name_error (fst (add_root group st)).
Proof.
  intros Hs. unfold add_root, bind, lift, get_s, set_s, ret.
  pure_case (py_contains k_root group) (py_contains_nne k_root group);
    [|split; assumption].
  destruct a; simpl; [|split; [assumption | exact I]].
  destruct (st_s st) as [cur|] eqn:Es; [|congruence]. simpl.
  pure_case (py_getitem group k_root) (py_getitem_nne group k_root);
    [|split; [congruence | assumption]].
  pure_case (py_str_add [SPACE] a) (py_str_add_nne [SPACE] a).
  - split; [discriminate | exact I].
  - split; [congruence | assumption].
Qed.

Lemma extract_roots_bound decomposition st :
  st_s st <> None ->
  st_s (snd (extract_roots decomposition st)) <> None /\
  no_name_error (fst (extract_roots decomposition st)).
Proof.
  intros Hs. unfold extract_roots, bind, lift.
  pure_case (py_iter decomposition) (py_iter_nne decomposition);
    [|split; assumption].
  apply (for_inv (fun st' => st_s st' <> None) no_name_error);
    [exact I | | exact Hs].
  intros decomp st1 H1.
  pure_case (py_iter decomp) (py_iter_nne decomp); [|split; assumption].
  apply (for_inv (fun st' => st_s st' <> None) no_name_error);
    [exact I | | exact H1].
  intros group st2 H2. apply add_root_bound; exact H2.
Qed.

(** Case analysis on the write of a string. *)
Ltac write_case t :=
  destruct (encodable t) eqn:?; simpl.

(** Lines 43-44 on a state in which [s] is bound. *)
Lemma loop_body_bare items st acc :
  dict_get items k_decomposition = None ->
  st_s st = Some acc ->
  encodable (to_slp1 acc ++ [NEWLINE]) = true ->
  loop_body (PDict items) st =
  (Ok tt, mkState (st_out st ++ [to_slp1 acc ++ [NEWLINE]]) (Some acc)).
Proof.
  intros Hd Hs He. unfold to_slp1 in *.
  unfold loop_body, bind, lift, get_s, write, ret. simpl.
  rewrite Hd. simpl. rewrite Hs. simpl. rewrite He, Hs. reflexivity.
Qed.

(** Lines 43-44 on a state in which [s] is unbound. *)
Lemma loop_body_bare_unbound items st :
  dict_get items k_decomposition = None ->
  st_s st = None ->
  loop_body (PDict items) st = (Raise (NameError (lit "s")), st).
Proof.
  intros Hd Hs. unfold loop_body, bind, lift, get_s, write, ret. simpl.
  rewrite Hd. simpl. rewrite Hs. reflexivity.
Qed.

Lemma loop_body_bound doc st :
  st_s st <> None ->
  st_s (snd (loop_body doc st)) <> None /\
  no_name_error (fst (loop_body doc st)).
Proof.
  intros Hs. unfold loop_body, bind, lift, get_s, set_s, write, ret.
  pure_case (py_contains k_decomposition doc)
            (py_contains_nne k_decomposition doc); [|split; assumption].
  destruct a; simpl.
  - pose proof (py_getitem_nne doc k_dcsId) as H1.
    destruct (py_getitem doc k_dcsId) as [dcsId|]; simpl in *;
      [|split; assumption].
    write_case (py_str dcsId ++ lit ", "); [|split; [assumption | exact I]].
    pose proof (py_getitem_nne doc k_text) as H2.
    destruct (py_getitem doc k_text) as [text|]; simpl in *;
      [|split; assumption].
    pose proof (py_add_str_nne text (lit ", ")) as H3.
    destruct (py_add_str text (lit ", ")) as [field|]; simpl in *;
      [|split; assumption].
    write_case field; [|split; [assumption | exact I]].
    pose proof (py_getitem_nne doc k_decomposition) as H4.
    destruct (py_getitem doc k_decomposition) as [dec|]; simpl in *;
      [|split; [discriminate | assumption]].
    match goal with
    | |- context [extract_roots ?d ?st0] =>
        destruct (extract_roots_bound d st0) as [Hb Hn];
        [simpl; discriminate|];
        destruct (extract_roots d st0) as [[u|e] st4]
    end; simpl in *; [|split; assumption].
    destruct (st_s st4) as [cur|] eqn:E4; [|congruence]. simpl.
    match goal with
    | |- context [encodable ?t] => write_case t
    end; (split; [congruence | exact I]).
  - destruct (st_s st) as [cur|] eqn:Es; [|congruence]. simpl.
    match goal with
    | |- context [encodable ?t] => write_case t
    end; (split; [congruence | exact I]).
Qed.

Lemma loop_body_field items v st :
  dict_get items k_decomposition = Some v ->
  no_name_error (fst (loop_body (PDict items) st)) /\
  (forall u, fst (loop_body (PDict items) st) = Ok u ->
             st_s (snd (loop_body (PDict items) st)) <> None).
Proof.
  intros Hd. unfold loop_body, bind, lift, get_s, set_s, write, ret.
  simpl. rewrite Hd. simpl.
  destruct (dict_get items k_dcsId) as [dcsId|]; simpl;
    [|split; [exact I | discriminate]].
  write_case (py_str dcsId ++ lit ", "); [|split; [exact I | discriminate]].
  destruct (dict_get items k_text) as [text|]; simpl;
    [|split; [exact I | discriminate]].
  pose proof (py_add_str_nne text (lit ", ")) as H3.
  destruct (py_add_str text (lit ", ")) as [field|]; simpl in *;
    [|split; [assumption | discriminate]].
  write_case field; [|split; [exact I | discriminate]].
  match goal with
  | |- context [extract_roots ?d ?st0] =>
      destruct (extract_roots_bound d st0) as [Hb Hn];
      [simpl; discriminate|];
      destruct (extract_roots d st0) as [[u|e] st4]
  end; simpl in *; [|split; [assumption | discriminate]].
  destruct (st_s st4) as [cur|] eqn:E4; [|congruence]. simpl.
  match goal with
  | |- context [encodable ?t] => write_case t
  end; [split; [exact I | congruence] | split; [exact I | discriminate]].
Qed.

(** A body that returns has written the line of the value it leaves in
    [s]. *)
Lemma loop_body_ok_encodable doc st u :
  fst (loop_body doc st) = Ok u ->
  exists acc, st_s (snd (loop_body doc st)) = Some acc /\
              encodable (to_slp1 acc ++ [NEWLINE]) = true.
Proof.
  unfold to_slp1, loop_body, bind, lift, get_s, set_s, write, ret.
  destruct (py_contains k_decomposition doc) as [[|]|]; simpl;
    [| |discriminate].
  - destruct (py_getitem doc k_dcsId) as [dcsId|]; simpl; [|discriminate].
    write_case (py_str dcsId ++ lit ", "); [|discriminate].
    destruct (py_getitem doc k_text) as [text|]; simpl; [|discriminate].
    destruct (py_add_str text (lit ", ")) as [field|]; simpl;
      [|discriminate].
    write_case field; [|discriminate].
    destruct (py_getitem doc k_decomposition) as [dec|]; simpl;
      [|discriminate].
    match goal with
    | |- context [extract_roots ?d ?st0] =>
        destruct (extract_roots d st0) as [[u'|e] st4]
    end; simpl; [|discriminate].
    destruct (st_s st4) as [cur|] eqn:E4; simpl; [|discriminate].
    match goal with
    | |- context [encodable ?t] => destruct (encodable t) eqn:He; simpl
    end; [|discriminate].
    intros _. exists cur. split; assumption.
  - destruct (st_s st) as [cur|] eqn:Es; simpl; [|discriminate].
    match goal with
    | |- context [encodable ?t] => destruct (encodable t) eqn:He; simpl
    end; [|discriminate].
    intros _. exists cur. split; assumption.
Qed.

(** What a run that ended normally has left in [s], it has written. *)
Lemma process_ok_encodable doc_list : forall st st' acc,
  (forall a, st_s st = Some a -> encodable (to_slp1 a ++ [NEWLINE]) = true) ->
  process doc_list st = (Ok tt, st') ->
  st_s st' = Some acc ->
  encodable (to_slp1 acc ++ [NEWLINE]) = true.
Proof.
  induction doc_list as [|d l IH]; intros st st' acc Hst Hp Hacc.
  - inversion Hp; subst. apply Hst; exact Hacc.
  - rewrite process_cons in Hp.
    destruct (sentence_test d) as [[|]|e]; try discriminate.
    + pose proof (loop_body_ok_encodable d st) as Hb.
      destruct (loop_body d st) as [[u|e] st1]; [|discriminate].
      destruct (Hb u eq_refl) as (a1 & Ha1 & He1). simpl in Ha1.
      apply (IH st1 st' acc); auto.
      intros a Ha. rewrite Ha in Ha1. inversion Ha1; subst. exact He1.
    + apply (IH st st' acc); auto.
Qed.

Lemma run_ok_encodable doc_list st acc :
  run (corpus doc_list) = (Ok tt, st) ->
  st_s st = Some acc ->
  encodable (to_slp1 acc ++ [NEWLINE]) = true.
Proof.
  rewrite run_corpus. apply process_ok_encodable. discriminate.
Qed.

(* ------------------------------------------------------------------ *)
(** ** Counting the lines of the file *)

Lemma newlines_app a b : newlines (a ++ b) = newlines a + newlines b.
Proof. unfold newlines. now rewrite filter_app, length_app. Qed.

Lemma newlines_snoc out t :
  newlines (concat (out ++ [t])) = newlines (concat out) + newlines t.
Proof.
  rewrite concat_app, newlines_app. simpl. now rewrite app_nil_r.
Qed.

Lemma startswith_firstn t p :
  startswith t p = str_eqb (firstn (length p) t) p.
Proof.
  revert t; induction p as [|c p IH]; intros [|d t]; simpl; auto.
  rewrite IH, N.eqb_sym. reflexivity.
Qed.

(** The documents that pass the filter are those with a [sentence_]
    identifier. *)
Lemma is_sentence_id doc : is_sentence doc = has_sentence_id doc.
Proof.
  unfold is_sentence, has_sentence_id, sentence_test, py_getitem,
    py_startswith.
  destruct doc; try reflexivity.
  destruct (dict_get items k_id) as [[]|]; try reflexivity.
  rewrite startswith_firstn.
  change (length sentence_prefix) with 9.
  change sentence_prefix with (lit "sentence_").
  destruct (str_eqb (firstn 9 t) (lit "sentence_")); reflexivity.
Qed.

Lemma for_inv_forall (I : state -> Prop) {A} (P : A -> bool)
    (f : A -> M unit) :
  (forall x st, P x = true -> I st -> I (snd (f x st))) ->
  forall xs st, forallb P xs = true -> I st -> I (snd (for_ xs f st)).
Proof.
  intros Hf xs. induction xs as [|x xs IH]; intros st Hxs HI; simpl.
  - exact HI.
  - simpl in Hxs. apply andb_true_iff in Hxs as [Hx Hxs].
    unfold bind. pose proof (Hf x st Hx HI) as HI'.
    destruct (f x st) as [[u|e] st']; simpl in *; auto.
Qed.

Lemma add_root_clean group st :
  root_newline_free group = true -> s_clean st ->
  s_clean (snd (add_root group st)).
Proof.
  unfold root_newline_free, add_root, bind, lift, get_s, set_s, ret.
  intros Hg Hs.
  destruct (py_contains k_root group) as [[|]|]; simpl; auto.
  destruct (st_s st) as [cur|] eqn:Es; simpl; auto.
  destruct (py_getitem group k_root) as [root|]; simpl; auto.
  destruct root; simpl; auto.
  intros a Ha. simpl in Ha. inversion Ha; subst.
  apply Nat.eqb_eq in Hg.
  rewrite newlines_app, (Hs cur Es). simpl. exact Hg.
Qed.

Lemma extract_roots_clean decomposition st :
  roots_newline_free decomposition = true -> s_clean st ->
  s_clean (snd (extract_roots decomposition st)).
Proof.
  unfold roots_newline_free, extract_roots, bind, lift.
  destruct (py_iter decomposition) as [decomps|]; simpl; auto.
  intros Hd Hs. revert Hd Hs. apply for_inv_forall.
  intros decomp st1 Hg H1.
  destruct (py_iter decomp) as [groups|]; simpl; auto.
  revert Hg H1. apply for_inv_forall.
  intros group st2. apply add_root_clean.
Qed.

Ltac clean_s :=
  let a := fresh "a" in
  let Ha := fresh "Ha" in
  intros a Ha; simpl in Ha;
  first [ solve [unfold s_clean in *; eauto]
        | inversion Ha; subst;
          first [reflexivity | solve [unfold s_clean in *; eauto]] ].

(** One document: at most one more line, and exactly one more when the
    body returns. *)
Lemma loop_body_newlines doc st :
  adds_no_newline -> doc_newline_free doc = true -> s_clean st ->
  s_clean (snd (loop_body doc st)) /\
  newlines (file_text (snd (loop_body doc st)))
  <= S (newlines (file_text st)) /\
  (forall u, fst (loop_body doc st) = Ok u ->
     newlines (file_text (snd (loop_body doc st)))
     = S (newlines (file_text st))).
Proof.
  intros Htr Hdoc Hs.
  assert (Hline : forall cur, newlines cur = 0 ->
            newlines (sanscript_transliterate cur Sanscript.IAST
                        Sanscript.SLP1 ++ [NEWLINE]) = 1).
  { intros cur Hc. rewrite newlines_app. pose proof (Htr cur Hc) as H.
    unfold to_slp1 in H. rewrite H. reflexivity. }
  assert (Hsep : forall t, newlines t = 0 -> newlines (t ++ lit ", ") = 0).
  { intros t Ht. rewrite newlines_app, Ht. reflexivity. }
  unfold doc_newline_free in Hdoc.
  apply andb_true_iff in Hdoc as [Hdoc Hdec].
  apply andb_true_iff in Hdoc as [Hid Htext].
  unfold file_text, loop_body, bind, lift, get_s, set_s, write, ret.
  destruct (py_contains k_decomposition doc) as [[|]|]; simpl.
  - destruct (py_getitem doc k_dcsId) as [dcsId|]; simpl;
      [|split; [assumption | split; [lia | discriminate]]].
    apply Nat.eqb_eq in Hid. pose proof (Hsep _ Hid) as Hid'.
    write_case (py_str dcsId ++ lit ", ");
      [|split; [assumption | split; [lia | discriminate]]].
    destruct (py_getitem doc k_text) as [text|]; simpl.
    2:{ split; [assumption|]. rewrite newlines_snoc, Hid'.
        split; [lia | discriminate]. }
    destruct text as [| | | |text| |]; simpl;
      try (split; [assumption|]; rewrite newlines_snoc, Hid';
           split; [lia | discriminate]).
    apply Nat.eqb_eq in Htext. pose proof (Hsep _ Htext) as Htext'.
    write_case (text ++ lit ", ").
    2:{ split; [assumption|]. rewrite newlines_snoc, Hid'.
        split; [lia | discriminate]. }
    destruct (py_getitem doc k_decomposition) as [dec|]; simpl.
    2:{ split; [clean_s|]. rewrite !newlines_snoc, Hid', Htext'.
        split; [lia | discriminate]. }
    match goal with
    | |- context [extract_roots ?d ?st0] =>
        pose proof (extract_roots_out d st0) as Ho;
        assert (Hc : s_clean (snd (extract_roots d st0)))
          by (apply extract_roots_clean; [exact Hdec | clean_s]);
        destruct (extract_roots d st0) as [[u|e] st4]
    end; simpl in *.
    + destruct (st_s st4) as [cur|] eqn:E4; simpl.
      * pose proof (Hline cur (Hc cur E4)) as Hl.
        match goal with
        | |- context [encodable ?t] => write_case t
        end.
        -- split; [clean_s|].
           rewrite newlines_snoc, Hl, Ho, !newlines_snoc, Hid', Htext'.
           split; [lia | intros; lia].
        -- split; [exact Hc|].
           rewrite Ho, !newlines_snoc, Hid', Htext'.
           split; [lia | discriminate].
      * split; [exact Hc|].
        rewrite Ho, !newlines_snoc, Hid', Htext'.
        split; [lia | discriminate].
    + split; [exact Hc|].
      rewrite Ho, !newlines_snoc, Hid', Htext'.
      split; [lia | discriminate].
  - destruct (st_s st) as [cur|] eqn:Es; simpl;
      [|split; [assumption | split; [lia | discriminate]]].
    pose proof (Hline cur (Hs cur Es)) as Hl.
    match goal with
    | |- context [encodable ?t] => write_case t
    end.
    + split; [clean_s|].
      rewrite newlines_snoc, Hl. split; [lia | intros; lia].
    + split; [assumption | split; [lia | discriminate]].
  - split; [assumption | split; [lia | discriminate]].
Qed.

Lemma process_newlines doc_list : forall st,
  adds_no_newline -> forallb doc_newline_free doc_list = true ->
  s_clean st ->
  newlines (file_text (snd (process doc_list st)))
  <= newlines (file_text st) + length (filter has_sentence_id doc_list) /\
  (fst (process doc_list st) = Ok tt ->
   newlines (file_text (snd (process doc_list st)))
   = newlines (file_text st) + length (filter has_sentence_id doc_list)).
Proof.
  induction doc_list as [|d l IH]; intros st Htr Hl Hs.
  - simpl. split; [lia | intros _; lia].
  - simpl in Hl. apply andb_true_iff in Hl as [Hd Hl].
    rewrite process_cons. simpl filter. rewrite <- (is_sentence_id d).
    assert (Hi : is_sentence d
                 = match sentence_test d with Ok true => true | _ => false end)
      by reflexivity.
    destruct (sentence_test d) as [[|]|e]; rewrite Hi; simpl.
    + destruct (loop_body_newlines d st Htr Hd Hs) as (Hc & Hle & Heq).
      destruct (loop_body d st) as [[[]|e] st']; simpl in *.
      * specialize (Heq tt eq_refl). destruct (IH st' Htr Hl Hc) as [H1 H2].
        split; [lia | intros E; specialize (H2 E); lia].
      * split; [lia | discriminate].
    + apply IH; assumption.
    + split; [lia | discriminate].
Qed.

End PipelineFacts.

(* ------------------------------------------------------------------ *)
(** ** Extraction on a decomposition of the documented shape *)

Section RootFacts.
Context `{RT : Runtime}.

Lemma spaced_app a b : spaced (a ++ b) = spaced a ++ spaced b.
Proof. unfold spaced. now rewrite map_app, concat_app. Qed.

Lemma add_root_token tok st cur :
  root_is_string tok = true ->
  st_s st = Some cur ->
  add_root (PDict tok) st =
  (Ok tt, mkState (st_out st) (Some (cur ++ spaced (token_roots tok)))).
Proof.
  unfold root_is_string, token_roots, add_root, bind, lift, get_s, set_s, ret.
  intros Ht Hs. simpl.
  destruct (dict_get tok k_root) as [[]|] eqn:E; try discriminate; simpl.
  - rewrite Hs. simpl. unfold spaced. simpl. now rewrite app_nil_r.
  - rewrite app_nil_r. destruct st; simpl in *. now rewrite Hs.
Qed.

Lemma add_root_group group : forall st cur,
  forallb root_is_string group = true ->
  st_s st = Some cur ->
  for_ (map PDict group) add_root st =
  (Ok tt, mkState (st_out st)
                  (Some (cur ++ spaced (flat_map token_roots group)))).
Proof.
  induction group as [|tok group IH]; intros st cur Hg Hs; simpl.
  - unfold ret. rewrite app_nil_r. destruct st; simpl in *. now rewrite Hs.
  - apply andb_true_iff in Hg as [Ht Hg].
    unfold bind. rewrite (add_root_token tok st cur Ht Hs).
    rewrite (IH (mkState (st_out st) (Some (cur ++ spaced (token_roots tok)))) _ Hg eq_refl).
    simpl. now rewrite spaced_app, app_assoc.
Qed.

Lemma extract_roots_groups groups : forall st cur,
  roots_are_strings groups = true ->
  st_s st = Some cur ->
  extract_roots (decomposition_value groups) st =
  (Ok tt, mkState (st_out st) (Some (cur ++ spaced (root_strings groups)))).
Proof.
  unfold extract_roots, decomposition_value, bind, lift. simpl.
  induction groups as [|group groups IH]; intros st cur Hg Hs; simpl.
  - unfold ret. rewrite app_nil_r. destruct st; simpl in *. now rewrite Hs.
  - apply andb_true_iff in Hg as [Hg1 Hg].
    unfold bind, lift. simpl. rewrite (add_root_group group st cur Hg1 Hs).
    rewrite (IH (mkState (st_out st) (Some (cur ++ spaced (flat_map token_roots group)))) _ Hg eq_refl).
    simpl. unfold root_strings. simpl.
    now rewrite spaced_app, app_assoc.
Qed.

Lemma root_strings_length groups :
  roots_are_strings groups = true ->
  length (root_strings groups) = root_bearing groups.
Proof.
  unfold root_strings, root_bearing, roots_are_strings.
  induction groups as [|group groups IH]; intros Hg; simpl; [reflexivity|].
  apply andb_true_iff in Hg as [Hg1 Hg].
  rewrite length_app, filter_app, length_app, (IH Hg). f_equal.
  clear - Hg1. induction group as [|tok group IH]; simpl; [reflexivity|].
  simpl in Hg1. apply andb_true_iff in Hg1 as [Ht Hg1].
  rewrite length_app, (IH Hg1).
  unfold token_roots, has_root, root_is_string in *.
  destruct (dict_get tok k_root) as [[]|]; try discriminate; reflexivity.
Qed.

Lemma split_spaces_word word : forall cur rest,
  forallb (fun c => negb (N.eqb c SPACE)) word = true ->
  split_spaces_from cur (word ++ rest) =
  split_spaces_from (rev word ++ cur) rest.
Proof.
  induction word as [|c word IH]; intros cur rest Hw; simpl; [reflexivity|].
  simpl in Hw. apply andb_true_iff in Hw as [Hc Hw].
  apply negb_true_iff in Hc. rewrite Hc, (IH _ _ Hw), <- app_assoc.
  reflexivity.
Qed.

Lemma split_spaces_spaced roots :
  forallb is_word roots = true ->
  split_spaces (spaced roots) = roots.
Proof.
  unfold split_spaces, spaced.
  induction roots as [|word roots IH]; intros Hr; simpl; [reflexivity|].
  apply andb_true_iff in Hr as [Hw Hr].
  unfold is_word in Hw. apply andb_true_iff in Hw as [Hn Hw].
  change (N.eqb SPACE SPACE) with true. cbv iota.
  rewrite (split_spaces_word word [] _ Hw), app_nil_r.
  assert (Hrev : rev word <> []).
  { destruct word; [discriminate|]. simpl.
    intros E. apply app_eq_nil in E as [_ E]. discriminate. }
  specialize (IH Hr).
  destruct roots as [|word' roots]; simpl in *.
  - destruct (rev word) eqn:E; [congruence|]. rewrite <- E, rev_involutive.
    reflexivity.
  - change (N.eqb SPACE SPACE) with true. cbv iota.
    destruct (rev word) eqn:E; [congruence|]. rewrite <- E, rev_involutive.
    f_equal. change (N.eqb SPACE SPACE) with true in IH. exact IH.
Qed.

(** Lines 35-44 on a document of the documented shape, all three
    strings being accepted by the stream. *)
Lemma loop_body_typed items dcsId text groups st :
  dict_get items k_dcsId = Some dcsId ->
  dict_get items k_text = Some (PStr text) ->
  dict_get items k_decomposition = Some (decomposition_value groups) ->
  roots_are_strings groups = true ->
  encodable (py_str dcsId ++ lit ", ") = true ->
  encodable (text ++ lit ", ") = true ->
  encodable (to_slp1 (spaced (root_strings groups)) ++ [NEWLINE]) = true ->
  loop_body (PDict items) st =
  (Ok tt,
   mkState (st_out st ++ [py_str dcsId ++ lit ", "; text ++ lit ", ";
                          to_slp1 (spaced (root_strings groups))
                            ++ [NEWLINE]])
           (Some (spaced (root_strings groups)))).
Proof.
  intros Hi Ht Hd Hg E1 E2 E3. unfold to_slp1 in *.
  unfold loop_body, bind, lift, get_s, set_s, write, ret. simpl.
  rewrite Hd, Hi. simpl. rewrite E1. simpl. rewrite Ht. simpl.
  rewrite E2. simpl.
  match goal with
  | |- context [extract_roots _ ?st0] =>
      rewrite (extract_roots_groups groups st0 [] Hg eq_refl)
  end. simpl. rewrite E3. simpl.
  rewrite <- !app_assoc. reflexivity.
Qed.

End RootFacts.

(* ------------------------------------------------------------------ *)
(** ** Checking a table by computation *)




(** A table without a newline in its target clusters gives a
    transliterator that adds none. *)
Lemma tokenize_newlines m :
  forallb (fun kv => Nat.eqb (newlines (snd kv)) 0) m = true ->
  forall data skip,
    newlines data = 0 ->
    newlines (concat (map Sanscript.render (Sanscript.tokenize m skip data)))
    = 0.
Proof.
  intros Hm. induction data as [|c rest IH]; intros skip H; [reflexivity|].
  assert (Hc : N.eqb c NEWLINE = false /\ newlines rest = 0).
  { unfold newlines in *. simpl in H.
    destruct (N.eqb c NEWLINE); [discriminate | auto]. }
  destruct Hc as [Hc Hrest]. simpl.
  destruct skip as [|n]; [|apply IH; exact Hrest].
  destruct (Sanscript.longest_match m (c :: rest)) as [[k v]|] eqn:L; simpl.
  - destruct (longest_match_sound _ _ _ _ L) as (Hin & _ & _).
    rewrite forallb_forall in Hm. specialize (Hm _ Hin). simpl in Hm.
    apply Nat.eqb_eq in Hm. rewrite newlines_app, Hm. apply IH; exact Hrest.
  - change (c :: concat (map Sanscript.render (Sanscript.tokenize m 0 rest)))
      with ([c] ++ concat (map Sanscript.render
                             (Sanscript.tokenize m 0 rest))).
    rewrite newlines_app, (IH 0 Hrest). unfold newlines. simpl.
    rewrite Hc. reflexivity.
Qed.

Lemma sample_adds_no_newline : @adds_no_newline sample_runtime.
Proof.
  intros t Ht. unfold to_slp1. simpl. unfold Sanscript.transliterate.
  apply tokenize_newlines; [vm_compute; reflexivity | exact Ht].
Qed.

(* ------------------------------------------------------------------ *)
(** ** The properties the specification states *)


(** C6 (witness). A digit and a hyphen are no letters of the sample IAST
    table: they come out as they went in. *)
Lemma transliterate_unmapped_identity_witness :
  Sanscript.transliterate sample_tables (lit "-7") Sanscript.IAST
    Sanscript.SLP1 = lit "-" ++ Sanscript.transliterate sample_tables
                                 (lit "7") Sanscript.IAST Sanscript.SLP1
  /\ Sanscript.transliterate sample_tables (lit "2-7") Sanscript.IAST
       Sanscript.SLP1 = lit "2-7".
Proof.
  split.
  - apply (proj1 (transliterate_unmapped_identity sample_tables
                    Sanscript.IAST Sanscript.SLP1)).
    vm_compute. reflexivity.
  - apply (proj2 (transliterate_unmapped_identity sample_tables
                    Sanscript.IAST Sanscript.SLP1)).
    vm_compute. reflexivity.
Defined.

(** C9. With an empty ["docs"] array the loop writes nothing: the run
    ends normally and the output file is empty. *)
Theorem empty_docs_empty_output `{RT : Runtime} :
  run (corpus []) = (Ok tt, initial) /\
  file_text (snd (run (corpus []))) = [].
Proof. split; reflexivity. Qed.

(** C7 (as amended). When the transliterator adds no newline and no
    document holds one in what the loop writes of it (its ["dcsId"] as
    [str] renders it, its ["text"], its root strings), the output file
    has at most as many lines as the input list has documents, whether
    the run ends normally or in an exception. *)
Theorem lines_at_most_documents `{RT : Runtime} (doc_list : list pyval) :
  adds_no_newline ->
  forallb doc_newline_free doc_list = true ->
  newlines (file_text (snd (run (corpus doc_list)))) <= length doc_list.
Proof.
  intros Htr Hl. rewrite run_corpus.
  assert (Hs : s_clean initial) by (intros a Ha; discriminate Ha).
  destruct (process_newlines doc_list initial Htr Hl Hs) as [H _].
  change (newlines (file_text initial)) with 0 in H.
  pose proof (filter_length_le has_sentence_id doc_list). lia.
Qed.

Lemma lines_at_most_documents_witness :
  newlines (file_text (snd (@run sample_runtime
                              (corpus [doc_1; doc_meta; doc_bare])))) <= 3.
Proof.
  apply (@lines_at_most_documents sample_runtime [doc_1; doc_meta; doc_bare]).
  - exact sample_adds_no_newline.
  - vm_compute. reflexivity.
Defined.

(** C7 (counterexample). One sentence document whose text has three
    lines: the run ends normally and the file has three lines. *)
Lemma three_lines_for_one_document :
  fst (@run sample_runtime (corpus [doc_three_lines])) = Ok tt /\
  newlines (file_text (snd (@run sample_runtime (corpus [doc_three_lines]))))
  = 3 /\
  length [doc_three_lines] = 1.
Proof. repeat split; vm_compute; reflexivity. Qed.

(** C1 (as amended). A sentence document without
    ["dcsAnalysisDecomposition"], met when the documents before it have
    been processed and have left a value in the accumulator [s], still
    gets a line: the transliteration of that carried-over value (not of
    the empty string), and [s] is left as it was, nothing being
    extracted. *)
Theorem stale_roots_reused `{RT : Runtime}
    (pre : list pyval) (items : list (pystr * pyval))
    (st : state) (acc : pystr) :
  sentence_test (PDict items) = Ok true ->
  dict_get items k_decomposition = None ->
  run (corpus pre) = (Ok tt, st) ->
  st_s st = Some acc ->
  run (corpus (pre ++ [PDict items])) =
  (Ok tt, mkState (st_out st ++ [to_slp1 acc ++ [NEWLINE]]) (Some acc)).
Proof.
  intros Ht Hd Hpre Hs.
  pose proof (run_ok_encodable pre st acc Hpre Hs) as He.
  rewrite run_corpus in *.
  rewrite process_app, Hpre, process_cons, Ht.
  rewrite (loop_body_bare items st acc Hd Hs He). reflexivity.
Qed.

Lemma stale_roots_reused_witness :
  @run sample_runtime (corpus ([doc_1] ++ [doc_bare])) =
  (Ok tt,
   mkState ([lit "1, "; text_1 ++ lit ", "; lit " gam" ++ [NEWLINE]]
              ++ [@to_slp1 sample_runtime (lit " gam") ++ [NEWLINE]])
           (Some (lit " gam"))).
Proof.
  apply (@stale_roots_reused sample_runtime [doc_1]
           items_bare
           (mkState [lit "1, "; text_1 ++ lit ", "; lit " gam" ++ [NEWLINE]]
                    (Some (lit " gam")))
           (lit " gam")).
  - vm_compute. reflexivity.
  - vm_compute. reflexivity.
  - vm_compute. reflexivity.
  - reflexivity.
Defined.

(** C1 (counterexample). A sentence document without
    ["dcsAnalysisDecomposition"] that no assignment to [s] precedes gets
    no line: the run ends in [NameError] with nothing written. *)
Lemma bare_first_sentence_gets_no_line :
  sentence_test doc_bare = Ok true /\
  dict_get items_bare k_decomposition = None /\
  @run sample_runtime (corpus [doc_bare])
  = (Raise (NameError (lit "s")), initial) /\
  lines_written (snd (@run sample_runtime (corpus [doc_bare]))) = 0.
Proof. repeat split; vm_compute; reflexivity. Qed.

(** C10. Let the documents before the first sentence document be ones
    the filter rejects. If that first sentence document has no
    ["dcsAnalysisDecomposition"], line 43 reads [s] unbound: the run
    ends in [NameError] with nothing written. If it has one, no run ends
    in [NameError]. *)
Theorem unbound_accumulator `{RT : Runtime}
    (pre : list pyval) (items : list (pystr * pyval)) (post : list pyval) :
  Forall (fun d => sentence_test d = Ok false) pre ->
  sentence_test (PDict items) = Ok true ->
  (dict_get items k_decomposition = None ->
   run (corpus (pre ++ PDict items :: post))
   = (Raise (NameError (lit "s")), initial)) /\
  (dict_get items k_decomposition <> None ->
   no_name_error (fst (run (corpus (pre ++ PDict items :: post))))).
Proof.
  intros Hpre Ht. rewrite run_corpus, process_app.
  rewrite (process_skipped pre initial Hpre), process_cons, Ht. split.
  - intros Hd. rewrite (loop_body_bare_unbound items initial Hd eq_refl).
    reflexivity.
  - intros Hd. destruct (dict_get items k_decomposition) as [v|] eqn:Ev;
      [clear Hd | congruence].
    destruct (loop_body_field items v initial Ev) as [Hn Hb].
    destruct (loop_body (PDict items) initial) as [[u|e] st]; simpl in *;
      [|exact Hn].
    specialize (Hb u eq_refl). clear Hn Ev Ht Hpre.
    revert st Hb. induction post as [|d post IH]; intros st Hb.
    + exact I.
    + rewrite process_cons.
      pose proof (sentence_test_no_name_error d) as Hd.
      destruct (sentence_test d) as [[|]|e]; simpl in *; auto.
      destruct (loop_body_bound d st Hb) as [Hb' Hn'].
      destruct (loop_body d st) as [[u'|e] st']; simpl in *; auto.
Qed.

Lemma unbound_accumulator_witness :
  @run sample_runtime (corpus ([doc_meta] ++ doc_bare :: [doc_1]))
  = (Raise (NameError (lit "s")), initial) /\
  no_name_error
    (fst (@run sample_runtime (corpus ([doc_meta] ++ doc_1 :: [doc_bare])))).
Proof.
  split.
  - apply (@unbound_accumulator sample_runtime [doc_meta]
             items_bare [doc_1]).
    + repeat constructor.
    + vm_compute. reflexivity.
    + vm_compute. reflexivity.
  - apply (@unbound_accumulator sample_runtime [doc_meta]
             items_1 [doc_bare]).
    + repeat constructor.
    + vm_compute. reflexivity.
    + vm_compute. discriminate.
Defined.

(** C8. A document without ["_id"] ends the run in an exception, and
    neither it nor any later document adds to the output. Unless an
    earlier document has already ended the run, the exception is
    [KeyError('_id')], raised when the filter reaches the document. *)
Theorem missing_id_aborts `{RT : Runtime}
    (pre : list pyval) (items : list (pystr * pyval)) (post : list pyval) :
  dict_get items k_id = None ->
  (exists e, fst (run (corpus (pre ++ PDict items :: post))) = Raise e) /\
  snd (run (corpus (pre ++ PDict items :: post))) = snd (run (corpus pre)) /\
  (forall st, run (corpus pre) = (Ok tt, st) ->
     run (corpus (pre ++ PDict items :: post)) = (Raise (KeyError k_id), st)).
Proof.
  intros Hid.
  change (run (corpus pre)) with (process pre initial).
  change (run (corpus (pre ++ PDict items :: post)))
    with (process (pre ++ PDict items :: post) initial).
  assert (Ht : sentence_test (PDict items) = Raise (KeyError k_id)).
  { unfold sentence_test, py_getitem. rewrite Hid. reflexivity. }
  rewrite process_app.
  destruct (process pre initial) as [[[]|e] st]; simpl.
  - rewrite process_cons, Ht.
    split; [eexists; reflexivity|].
    split; [reflexivity|]. intros st' E; inversion E; reflexivity.
  - split; [eexists; reflexivity|].
    split; [reflexivity|]. intros st' E; discriminate E.
Qed.

Lemma missing_id_aborts_witness :
  (exists e, fst (@run sample_runtime
                    (corpus ([doc_1] ++ doc_anonymous :: [doc_1])))
             = Raise e) /\
  snd (@run sample_runtime (corpus ([doc_1] ++ doc_anonymous :: [doc_1])))
  = snd (@run sample_runtime (corpus [doc_1])) /\
  (forall st, @run sample_runtime (corpus [doc_1]) = (Ok tt, st) ->
     @run sample_runtime (corpus ([doc_1] ++ doc_anonymous :: [doc_1]))
     = (Raise (KeyError k_id), st)).
Proof.
  apply (@missing_id_aborts sample_runtime [doc_1] items_anonymous [doc_1]).
  vm_compute. reflexivity.
Defined.

(** C4. Every document the generator yields is a document of the list
    and an object whose ["_id"] is a string of the form [sentence_]
    followed by some rest. On a list of objects with string ["_id"] the
    generator ends normally and yields exactly the documents whose
    ["_id"] begins with [sentence_], in the order of the list. A
    document whose ["_id"] is a string that does not begin with
    [sentence_] leaves no trace: the run is the run on the list without
    it. *)
Theorem only_sentences_yielded `{RT : Runtime} :
  (forall doc_list d,
      In d (fst (yield_sentences doc_list)) ->
      In d doc_list /\
      exists items rest,
        d = PDict items /\
        dict_get items k_id = Some (PStr (lit "sentence_" ++ rest))) /\
  (forall doc_list,
      forallb has_string_id doc_list = true ->
      yield_sentences doc_list = (filter has_sentence_id doc_list, None)) /\
  (forall d,
      has_sentence_id d = true <->
      exists items rest,
        d = PDict items /\
        dict_get items k_id = Some (PStr (lit "sentence_" ++ rest))) /\
  (forall pre items t post,
      dict_get items k_id = Some (PStr t) ->
      has_sentence_id (PDict items) = false ->
      run (corpus (pre ++ PDict items :: post)) = run (corpus (pre ++ post))).
Proof.
  assert (Hid : forall d,
             has_sentence_id d = true <->
             exists items rest,
               d = PDict items /\
               dict_get items k_id = Some (PStr (lit "sentence_" ++ rest))).
  { intros d. unfold has_sentence_id. split.
    - destruct d; try discriminate.
      destruct (dict_get items k_id) as [[]|] eqn:E; try discriminate.
      intros H. apply str_eqb_eq in H.
      exists items, (skipn 9 t). split; [reflexivity|].
      rewrite E, <- H, firstn_skipn. reflexivity.
    - intros (items & rest & -> & ->). reflexivity. }
  split; [|split; [|split]].
  - induction doc_list as [|d0 l IH]; simpl; [tauto|]. intros d.
    destruct (sentence_test d0) as [[|]|e] eqn:E; simpl; try tauto.
    + destruct (yield_sentences l) as [ys ended]; simpl in *.
      intros [<-|Hin].
      * split; [left; reflexivity|]. apply Hid.
        rewrite <- is_sentence_id. unfold is_sentence. now rewrite E.
      * destruct (IH d Hin) as [H1 H2]. split; [right; exact H1 | exact H2].
    + intros Hin. destruct (IH d Hin) as [H1 H2].
      split; [right; exact H1 | exact H2].
  - induction doc_list as [|d0 l IH]; simpl; [reflexivity|].
    intros H. apply andb_true_iff in H as [H0 H]. rewrite (IH H).
    rewrite <- (is_sentence_id d0). unfold is_sentence.
    unfold has_string_id in H0. destruct d0; try discriminate.
    unfold sentence_test, py_getitem, py_startswith.
    destruct (dict_get items k_id) as [[]|]; try discriminate.
    destruct (startswith t sentence_prefix); reflexivity.
  - exact Hid.
  - intros pre items t post Hi Hp. rewrite !run_corpus, !process_app.
    destruct (process pre initial) as [[u|e] st]; [|reflexivity].
    rewrite process_cons.
    assert (sentence_test (PDict items) = Ok false) as ->; [|reflexivity].
    rewrite <- is_sentence_id in Hp. unfold is_sentence in Hp.
    unfold sentence_test, py_getitem, py_startswith in *. rewrite Hi in *.
    destruct (startswith t sentence_prefix); [discriminate | reflexivity].
Qed.

Lemma only_sentences_yielded_witness :
  (In doc_1 [doc_meta; doc_1] /\
   exists items rest,
     doc_1 = PDict items /\
     dict_get items k_id = Some (PStr (lit "sentence_" ++ rest))) /\
  yield_sentences [doc_meta; doc_1; doc_bare] = ([doc_1; doc_bare], None) /\
  has_sentence_id doc_bare = true /\
  @run sample_runtime (corpus ([doc_1] ++ PDict items_meta :: [doc_bare]))
  = @run sample_runtime (corpus ([doc_1] ++ [doc_bare])).
Proof.
  destruct (@only_sentences_yielded sample_runtime) as (H1 & H2 & H3 & H4).
  split; [|split; [|split]].
  - apply (H1 [doc_meta; doc_1]). vm_compute. left. reflexivity.
  - apply (H2 [doc_meta; doc_1; doc_bare]). reflexivity.
  - apply (proj2 (H3 doc_bare)). exists items_bare, (lit "2").
    split; reflexivity.
  - apply (H4 [doc_1] items_meta (lit "meta_1") [doc_bare]); reflexivity.
Defined.

(** C3 (as amended). For a decomposition that is a sequence of groups
    of token-mappings, every root a string: lines 38-42 end normally and
    leave in [s] the root values, each preceded by one space, in the
    order outer sequence then inner sequence, and so does the loop body
    on a document that holds this decomposition besides ["dcsId"] and a
    string ["text"] when the stream accepts what is written; there are
    as many roots as token-mappings with a ["root"] key, the others
    adding nothing; and when every root is a word (not empty, no space
    inside) splitting [s] at spaces gives back exactly those roots. *)
Theorem extracted_roots_in_order `{RT : Runtime}
    (groups : list (list token_mapping)) :
  roots_are_strings groups = true ->
  (forall st,
      (set_s [] ;; extract_roots (decomposition_value groups)) st
      = (Ok tt, mkState (st_out st) (Some (spaced (root_strings groups))))) /\
  (forall items dcsId text st,
      dict_get items k_dcsId = Some dcsId ->
      dict_get items k_text = Some (PStr text) ->
      dict_get items k_decomposition = Some (decomposition_value groups) ->
      encodable (py_str dcsId ++ lit ", ") = true ->
      encodable (text ++ lit ", ") = true ->
      encodable (to_slp1 (spaced (root_strings groups)) ++ [NEWLINE])
      = true ->
      loop_body (PDict items) st
      = (Ok tt,
         mkState (st_out st ++ [py_str dcsId ++ lit ", "; text ++ lit ", ";
                                to_slp1 (spaced (root_strings groups))
                                  ++ [NEWLINE]])
                 (Some (spaced (root_strings groups))))) /\
  length (root_strings groups) = root_bearing groups /\
  (forallb is_word (root_strings groups) = true ->
   split_spaces (spaced (root_strings groups)) = root_strings groups).
Proof.
  intros Hg. split; [|split; [|split]].
  - intros st.
    pose proof (extract_roots_groups groups
                  (mkState (st_out st) (Some [])) [] Hg eq_refl) as E.
    unfold bind, set_s. exact E.
  - intros items dcsId text st Hi Ht Hd E1 E2 E3.
    apply loop_body_typed; assumption.
  - apply root_strings_length; exact Hg.
  - apply split_spaces_spaced.
Qed.

Lemma extracted_roots_in_order_witness :
  (set_s [] ;; extract_roots (decomposition_value groups_3)) initial
  = (Ok tt, mkState [] (Some (lit " r" ++ [257%N] ++ lit "ma gam"))) /\
  @loop_body sample_runtime (PDict items_3) initial
  = (Ok tt,
     mkState [lit "3, "; text_1 ++ lit ", ";
              lit " rAma gam" ++ [NEWLINE]]
             (Some (lit " r" ++ [257%N] ++ lit "ma gam"))) /\
  length (root_strings groups_3) = 2 /\
  split_spaces (lit " r" ++ [257%N] ++ lit "ma gam")
  = [lit "r" ++ [257%N] ++ lit "ma"; lit "gam"].
Proof.
  destruct (@extracted_roots_in_order sample_runtime groups_3 eq_refl)
    as (H1 & H2 & H3 & H4).
  split; [exact (H1 initial)|].
  split; [exact (H2 items_3 (PInt 3) text_1 initial
                    eq_refl eq_refl eq_refl eq_refl eq_refl eq_refl)|].
  split; [exact H3 | exact (H4 eq_refl)].
Defined.

(** C3 (counterexample). One token-mapping whose root is the two words
    [a b]: one root-bearing token-mapping, and an extracted string of
    two space-separated tokens. *)
Lemma one_root_two_tokens :
  roots_are_strings groups_two_words = true /\
  root_bearing groups_two_words = 1 /\
  (set_s [] ;; extract_roots (decomposition_value groups_two_words)) initial
  = (Ok tt, mkState [] (Some (lit " a b"))) /\
  split_spaces (lit " a b") = [lit "a"; lit "b"].
Proof. repeat split; vm_compute; reflexivity. Qed.

(** C2 (as amended). On the input of scenario 1, with a transliterator
    that leaves the root string [ gam] as it is, the run ends normally
    after three writes, and the file holds the one line
    [1, rāmaḥ gacchati,  gam]: the separator [, ] is followed by the
    space that precedes every root. *)
Theorem scenario_1_output `{RT : Runtime} :
  to_slp1 (lit " gam") = lit " gam" ->
  run scenario_1
  = (Ok tt, mkState [lit "1, "; text_1 ++ lit ", "; lit " gam" ++ [NEWLINE]]
                    (Some (lit " gam"))) /\
  file_text (snd (run scenario_1))
  = lit "1, " ++ text_1 ++ lit ",  gam" ++ [NEWLINE].
Proof.
  intros Htr.
  assert (E : run scenario_1
              = (Ok tt, mkState [lit "1, "; text_1 ++ lit ", ";
                                 lit " gam" ++ [NEWLINE]]
                                (Some (lit " gam")))).
  { unfold scenario_1. rewrite run_corpus, process_cons.
    change (sentence_test doc_1) with (@Ok bool true). cbv iota.
    unfold doc_1.
    assert (He : encodable (to_slp1 (spaced (root_strings groups_1))
                             ++ [NEWLINE]) = true).
    { change (spaced (root_strings groups_1)) with (lit " gam").
      rewrite Htr. reflexivity. }
    rewrite (loop_body_typed items_1 (PInt 1) text_1 groups_1 initial
               eq_refl eq_refl eq_refl eq_refl eq_refl eq_refl He).
    change (spaced (root_strings groups_1)) with (lit " gam").
    rewrite Htr. reflexivity. }
  split; [exact E|]. rewrite E. reflexivity.
Qed.

Lemma scenario_1_output_witness :
  @run sample_runtime scenario_1
  = (Ok tt, mkState [lit "1, "; text_1 ++ lit ", "; lit " gam" ++ [NEWLINE]]
                    (Some (lit " gam"))) /\
  file_text (snd (@run sample_runtime scenario_1))
  = lit "1, " ++ text_1 ++ lit ",  gam" ++ [NEWLINE].
Proof.
  apply (@scenario_1_output sample_runtime). vm_compute. reflexivity.
Defined.

(** C2 (counterexample). On the input of scenario 1 the file does not
    hold the line [1, rāmaḥ gacchati, gam] of the specification: there
    are two spaces before [gam], not one. *)
Lemma scenario_1_claimed_line_differs :
  file_text (snd (@run sample_runtime scenario_1))
  = lit "1, " ++ text_1 ++ lit ",  gam" ++ [NEWLINE] /\
  @to_slp1 sample_runtime (lit " gam") = lit " gam" /\
  str_eqb (file_text (snd (@run sample_runtime scenario_1)))
          scenario_1_claimed_line = false.
Proof. repeat split; vm_compute; reflexivity. Qed.

(* ------------------------------------------------------------------ *)
(** ** Further properties of the script *)

Section RunFacts.
Context `{RT : Runtime}.

(** The filter's exception on a document ends the run where the earlier
    documents left it. *)
Lemma process_filter_error pre doc post st0 st e :
  process pre st0 = (Ok tt, st) ->
  sentence_test doc = Raise e ->
  process (pre ++ doc :: post) st0 = (Raise e, st).
Proof.
  intros Hpre Ht. rewrite process_app, Hpre, process_cons, Ht. reflexivity.
Qed.

Lemma for_split {A} (xs ys : list A) (f : A -> M unit) st :
  for_ (xs ++ ys) f st =
  match for_ xs f st with
  | (Ok _, st') => for_ ys f st'
  | (Raise e, st') => (Raise e, st')
  end.
Proof.
  revert st; induction xs as [|x xs IH]; intros st; simpl.
  - reflexivity.
  - unfold bind. destruct (f x st) as [[u|e] st']; auto.
Qed.

Ltac write_case t :=
  destruct (encodable t) eqn:?; simpl.

Lemma loop_body_appends doc st :
  exists chunks, st_out (snd (loop_body doc st)) = st_out st ++ chunks.
Proof.
  unfold loop_body, bind, lift, get_s, set_s, write, ret.
  destruct (py_contains k_decomposition doc) as [[|]|]; simpl.
  - destruct (py_getitem doc k_dcsId) as [dcsId|]; simpl;
      [|exists []; now rewrite app_nil_r].
    write_case (py_str dcsId ++ lit ", ");
      [|exists []; now rewrite app_nil_r].
    destruct (py_getitem doc k_text) as [text|]; simpl;
      [|eexists; reflexivity].
    destruct (py_add_str text (lit ", ")) as [field|]; simpl;
      [|eexists; reflexivity].
    write_case field; [|eexists; reflexivity].
    destruct (py_getitem doc k_decomposition) as [dec|]; simpl;
      [|eexists; rewrite <- app_assoc; reflexivity].
    match goal with
    | |- context [extract_roots ?d ?st0] =>
        pose proof (extract_roots_out d st0) as Ho;
        destruct (extract_roots d st0) as [[u|e] st4]
    end; simpl in *.
    + destruct (st_s st4) as [cur|]; simpl.
      * match goal with
        | |- context [encodable ?t] => write_case t
        end; rewrite Ho; eexists; rewrite <- !app_assoc; reflexivity.
      * rewrite Ho. eexists; rewrite <- !app_assoc; reflexivity.
    + rewrite Ho. eexists; rewrite <- app_assoc; reflexivity.
  - destruct (st_s st) as [cur|]; simpl;
      [|exists []; now rewrite app_nil_r].
    match goal with
    | |- context [encodable ?t] => write_case t
    end; [eexists; reflexivity | exists []; now rewrite app_nil_r].
  - exists []; now rewrite app_nil_r.
Qed.

Lemma process_appends doc_list : forall st,
  exists more, st_out (snd (process doc_list st)) = st_out st ++ more.
Proof.
  induction doc_list as [|d l IH]; intros st.
  - exists []. simpl. now rewrite app_nil_r.
  - rewrite process_cons.
    destruct (sentence_test d) as [[|]|e]; simpl.
    + destruct (loop_body_appends d st) as [c1 H1].
      destruct (loop_body d st) as [[u|e] st']; simpl in *.
      * destruct (IH st') as [c2 H2]. exists (c1 ++ c2).
        now rewrite H2, H1, app_assoc.
      * exists c1; exact H1.
    + apply IH.
    + exists []; now rewrite app_nil_r.
Qed.

Lemma holds_body doc r st :
  holds doc r -> record_encodable r = true ->
  loop_body doc st =
  (Ok tt, mkState (st_out st ++ record_writes r)
                  (Some (spaced (root_strings (rec_groups r))))).
Proof.
  intros (items & -> & _ & Hi & Ht & Hd & Hg) He.
  unfold record_encodable, record_writes in He. simpl in He.
  apply andb_true_iff in He as [E1 He].
  apply andb_true_iff in He as [E2 He].
  apply andb_true_iff in He as [E3 _].
  apply loop_body_typed; assumption.
Qed.

Lemma reads_process docs rs :
  reads docs rs ->
  forallb record_encodable rs = true ->
  forall st, exists s',
    process docs st
    = (Ok tt, mkState (st_out st ++ flat_map record_writes rs) s').
Proof.
  induction 1 as [|d docs rs Hd _ IH|d r docs rs Hh _ IH]; intros He st.
  - exists (st_s st). simpl. rewrite app_nil_r. destruct st; reflexivity.
  - rewrite process_cons, Hd. apply IH; exact He.
  - simpl in He. apply andb_true_iff in He as [Hr He].
    rewrite process_cons. rewrite (holds_body d r st Hh Hr).
    destruct Hh as (items & E & Ht & Hrest). rewrite Ht.
    destruct (IH He (mkState (st_out st ++ record_writes r)
                             (Some (spaced (root_strings (rec_groups r))))))
      as [s' Hs'].
    exists s'. rewrite Hs'. simpl st_out.
    rewrite <- app_assoc. reflexivity.
Qed.

Lemma concat_flat_map_writes rs :
  concat (flat_map record_writes rs) = concat (map record_line rs).
Proof.
  induction rs as [|r rs IH]; [reflexivity|].
  change (flat_map record_writes (r :: rs))
    with (record_writes r ++ flat_map record_writes rs).
  rewrite concat_app, IH. reflexivity.
Qed.

Lemma is_bare_inv doc :
  is_bare doc = true ->
  exists items, doc = PDict items /\ sentence_test doc = Ok true /\
                dict_get items k_decomposition = None.
Proof.
  destruct doc; try discriminate. unfold is_bare, is_sentence.
  intros H. apply andb_true_iff in H as [H1 H2].
  exists items. split; [reflexivity|]. split.
  - destruct (sentence_test (PDict items)) as [[|]|]; try discriminate.
    reflexivity.
  - destruct (dict_get items k_decomposition); [discriminate|reflexivity].
Qed.

(** A token-mapping whose root is no string stops the inner loop at it,
    with the roots before it in [s]. *)
Lemma add_root_group_stops ts1 bad ts2 v st cur :
  forallb root_is_string ts1 = true ->
  dict_get bad k_root = Some v -> is_string v = false ->
  st_s st = Some cur ->
  for_ (map PDict (ts1 ++ bad :: ts2)) add_root st =
  (Raise TypeError,
   mkState (st_out st) (Some (cur ++ spaced (flat_map token_roots ts1)))).
Proof.
  intros H1 Hb Hv Hs. rewrite map_app, for_split.
  pose proof (add_root_group ts1 st cur H1 Hs) as E.
  unfold token_mapping in *. rewrite E. simpl.
  unfold bind, add_root at 1, bind, lift, get_s. simpl.
  rewrite Hb. simpl.
  destruct v; try discriminate; reflexivity.
Qed.

End RunFacts.

Section FurtherProperties.
Context `{RT : Runtime}.

(** X1. A loaded value that gives the generator no array of documents
    never leads to a write. A value that is no object raises
    [TypeError]; an object without ["docs"] raises [KeyError('docs')];
    a ["docs"] that is no array raises [TypeError], unless it is an
    empty string or an empty object, which count as no documents. *)
Theorem malformed_input_writes_nothing (loaded : pyval) :
  (is_dict loaded = false -> run loaded = (Raise TypeError, initial)) /\
  (forall items,
      loaded = PDict items -> dict_get items k_docs = None ->
      run loaded = (Raise (KeyError k_docs), initial)) /\
  (forall items v,
      loaded = PDict items -> dict_get items k_docs = Some v ->
      is_list v = false ->
      run loaded
      = (if is_empty_iterable v then Ok tt else Raise TypeError, initial)).
Proof.
  split; [|split].
  - destruct loaded; try discriminate; reflexivity.
  - intros items -> H. unfold run, main_loop, iter_sentences. simpl.
    rewrite H. reflexivity.
  - intros items v -> H Hv. unfold run, main_loop, iter_sentences. simpl.
    rewrite H. destruct v as [| | | |t|l|d]; try reflexivity.
    + destruct t; reflexivity.
    + discriminate.
    + destruct d; reflexivity.
Qed.

(** X2. A document that is no object makes the filter raise
    [TypeError], and an object whose ["_id"] is no string makes it raise
    [AttributeError]; either ends the run with the output as the earlier
    documents left it. *)
Theorem ill_typed_document_aborts
    (pre : list pyval) (doc : pyval) (post : list pyval) (st : state) :
  run (corpus pre) = (Ok tt, st) ->
  (is_dict doc = false ->
   run (corpus (pre ++ doc :: post)) = (Raise TypeError, st)) /\
  (forall items v,
      doc = PDict items -> dict_get items k_id = Some v ->
      is_string v = false ->
      run (corpus (pre ++ doc :: post)) = (Raise AttributeError, st)).
Proof.
  intros Hpre. rewrite run_corpus in Hpre. split.
  - intros Hd. rewrite run_corpus.
    apply process_filter_error; [exact Hpre|].
    destruct doc; try discriminate; reflexivity.
  - intros items v -> Hid Hv. rewrite run_corpus.
    apply process_filter_error; [exact Hpre|].
    unfold sentence_test, py_getitem. rewrite Hid.
    destruct v; try discriminate; reflexivity.
Qed.

(** X3. A sentence document with a decomposition but without
    ["dcsId"] raises [KeyError('dcsId')] and changes nothing, and so
    does, with [UnicodeEncodeError], one whose ["dcsId"] the stream
    refuses. With an accepted ["dcsId"] but without ["text"], or with a
    ["text"] that is no string, the identifier field has been written
    when the exception is raised: the output ends in a record without
    its line end. *)
Theorem missing_field_partial_record
    (items : list (pystr * pyval)) (v : pyval) (st : state) :
  dict_get items k_decomposition = Some v ->
  (dict_get items k_dcsId = None ->
   loop_body (PDict items) st = (Raise (KeyError k_dcsId), st)) /\
  (forall dcsId,
      dict_get items k_dcsId = Some dcsId ->
      encodable (py_str dcsId ++ lit ", ") = false ->
      loop_body (PDict items) st = (Raise UnicodeEncodeError, st)) /\
  (forall dcsId,
      dict_get items k_dcsId = Some dcsId ->
      encodable (py_str dcsId ++ lit ", ") = true ->
      dict_get items k_text = None ->
      loop_body (PDict items) st
      = (Raise (KeyError k_text),
         mkState (st_out st ++ [py_str dcsId ++ lit ", "]) (st_s st))) /\
  (forall dcsId text,
      dict_get items k_dcsId = Some dcsId ->
      encodable (py_str dcsId ++ lit ", ") = true ->
      dict_get items k_text = Some text ->
      is_string text = false ->
      loop_body (PDict items) st
      = (Raise TypeError,
         mkState (st_out st ++ [py_str dcsId ++ lit ", "]) (st_s st))).
Proof.
  intros Hd. unfold loop_body, bind, lift, write. simpl. rewrite Hd. simpl.
  split; [|split; [|split]].
  - intros ->. reflexivity.
  - intros dcsId -> He. simpl. rewrite He. reflexivity.
  - intros dcsId -> He ->. simpl. rewrite He. reflexivity.
  - intros dcsId text -> He -> Ht. simpl. rewrite He. simpl.
    destruct text; try discriminate; reflexivity.
Qed.

Local Arguments extract_roots : simpl never.
Local Arguments decomposition_value : simpl never.

Lemma extract_roots_stops
    (gs1 : list (list token_mapping)) (ts1 : list token_mapping)
    (bad : token_mapping) (ts2 : list token_mapping)
    (gs2 : list (list token_mapping)) v st cur :
  roots_are_strings gs1 = true ->
  forallb root_is_string ts1 = true ->
  dict_get bad k_root = Some v -> is_string v = false ->
  st_s st = Some cur ->
  extract_roots
    (decomposition_value (gs1 ++ (ts1 ++ bad :: ts2) :: gs2)) st =
  (Raise TypeError,
   mkState (st_out st)
           (Some (cur ++ spaced (root_strings gs1
                                  ++ flat_map token_roots ts1)))).
Proof.
  intros Hg Ht Hb Hv Hs.
  pose proof (extract_roots_groups gs1 st cur Hg Hs) as E.
  unfold extract_roots, decomposition_value, bind, lift in *.
  simpl in *. rewrite map_app, for_split.
  unfold token_mapping in *. rewrite E. simpl.
  unfold bind, lift. simpl.
  pose proof (add_root_group_stops ts1 bad ts2 v
                (mkState (st_out st)
                         (Some (cur ++ spaced (root_strings gs1))))
                (cur ++ spaced (root_strings gs1)) Ht Hb Hv eq_refl) as E'.
  unfold token_mapping in *. rewrite E'.
  simpl. now rewrite spaced_app, app_assoc.
Qed.

(** X4. A root that is no string (a [null], a number) raises
    [TypeError] at its token-mapping: the identifier and text fields of
    the document, which the stream accepted, are in the output without
    a line end, and [s] holds the roots met before it. *)
Theorem non_string_root_aborts
    (items : list (pystr * pyval)) (dcsId : pyval) (text : pystr)
    (gs1 : list (list token_mapping)) (ts1 : list token_mapping)
    (bad : token_mapping) (ts2 : list token_mapping)
    (gs2 : list (list token_mapping)) (v : pyval) (st : state) :
  dict_get items k_dcsId = Some dcsId ->
  dict_get items k_text = Some (PStr text) ->
  dict_get items k_decomposition
  = Some (decomposition_value (gs1 ++ (ts1 ++ bad :: ts2) :: gs2)) ->
  encodable (py_str dcsId ++ lit ", ") = true ->
  encodable (text ++ lit ", ") = true ->
  roots_are_strings gs1 = true ->
  forallb root_is_string ts1 = true ->
  dict_get bad k_root = Some v ->
  is_string v = false ->
  loop_body (PDict items) st =
  (Raise TypeError,
   mkState (st_out st ++ [py_str dcsId ++ lit ", "; text ++ lit ", "])
           (Some (spaced (root_strings gs1 ++ flat_map token_roots ts1)))).
Proof.
  intros Hi Ht Hd E1 E2 Hg Hts Hb Hv.
  unfold loop_body, bind, lift, get_s, set_s, write, ret. simpl.
  rewrite Hd, Hi. simpl. rewrite E1. simpl. rewrite Ht. simpl.
  rewrite E2. simpl.
  match goal with
  | |- context [extract_roots _ ?st0] =>
      rewrite (extract_roots_stops gs1 ts1 bad ts2 gs2 v st0 []
                 Hg Hts Hb Hv eq_refl)
  end. simpl. rewrite <- app_assoc. reflexivity.
Qed.

(** X5. The output only grows: what the run on a list of documents has
    written is still there, in front, in the run on any longer list
    that starts with it. *)
Theorem output_append_only (pre post : list pyval) :
  exists more,
    st_out (snd (run (corpus (pre ++ post))))
    = st_out (snd (run (corpus pre))) ++ more.
Proof.
  rewrite !run_corpus, process_app.
  destruct (process pre initial) as [[u|e] st]; simpl.
  - apply process_appends.
  - exists []. now rewrite app_nil_r.
Qed.

(** X6. When the transliterator adds no newline and no document holds
    one in what the loop writes of it, the file never has more lines
    than the list has documents with a [sentence_] identifier, and
    after a run that ends normally it has exactly one line for each of
    them, with or without a decomposition. *)
Theorem lines_equal_sentences (doc_list : list pyval) :
  adds_no_newline ->
  forallb doc_newline_free doc_list = true ->
  newlines (file_text (snd (run (corpus doc_list))))
  <= length (filter has_sentence_id doc_list) /\
  (fst (run (corpus doc_list)) = Ok tt ->
   newlines (file_text (snd (run (corpus doc_list))))
   = length (filter has_sentence_id doc_list)).
Proof.
  intros Htr Hl. rewrite run_corpus.
  assert (Hs : s_clean initial) by (intros a Ha; discriminate Ha).
  exact (process_newlines doc_list initial Htr Hl Hs).
Qed.

(** X7. On a list in which every document is either rejected by the
    filter or a well-formed sentence document with a decomposition,
    whose three strings the stream accepts, the run ends normally and
    the file is the lines of the sentence documents in order, each
    [str(dcsId), text, roots] with the roots preceded by a space each
    and transliterated. *)
Theorem well_formed_corpus_output
    (docs : list pyval) (rs : list sentence_record) :
  reads docs rs ->
  forallb record_encodable rs = true ->
  fst (run (corpus docs)) = Ok tt /\
  st_out (snd (run (corpus docs))) = flat_map record_writes rs /\
  file_text (snd (run (corpus docs))) = concat (map record_line rs).
Proof.
  intros H He. rewrite run_corpus.
  destruct (reads_process docs rs H He initial) as [s' E]. rewrite E.
  simpl. split; [reflexivity|]. split; [reflexivity|].
  unfold file_text. simpl. apply concat_flat_map_writes.
Qed.

(** X8. After the documents processed so far have left a value in
    [s], a stretch of sentence documents without decomposition gets
    one and the same line each, the transliteration of that value, and
    leaves [s] as it was. *)
Theorem stale_line_repeated
    (pre bares : list pyval) (st : state) (acc : pystr) :
  run (corpus pre) = (Ok tt, st) ->
  st_s st = Some acc ->
  forallb is_bare bares = true ->
  run (corpus (pre ++ bares)) =
  (Ok tt,
   mkState (st_out st ++ repeat (to_slp1 acc ++ [NEWLINE]) (length bares))
           (Some acc)).
Proof.
  intros Hpre Hs Hb.
  pose proof (run_ok_encodable pre st acc Hpre Hs) as He.
  rewrite run_corpus in *. rewrite process_app, Hpre.
  clear Hpre pre. revert st Hs.
  induction bares as [|d bares IH]; intros st Hs.
  - simpl. rewrite app_nil_r. destruct st; simpl in *. now rewrite Hs.
  - simpl in Hb. apply andb_true_iff in Hb as [Hd Hb].
    destruct (is_bare_inv d Hd) as (items & -> & Ht & Hn).
    rewrite process_cons, Ht, (loop_body_bare items st acc Hn Hs He).
    rewrite (IH Hb (mkState (st_out st ++ [to_slp1 acc ++ [NEWLINE]])
                            (Some acc)) eq_refl).
    simpl. rewrite <- app_assoc. reflexivity.
Qed.

(** X9. Once [s] is bound it stays bound: from a state in which [s]
    has a value, no list of documents leads to [NameError], and [s]
    has a value at the end, however the loop ends. *)
Theorem accumulator_stays_bound (doc_list : list pyval) (st : state) :
  st_s st <> None ->
  st_s (snd (process doc_list st)) <> None /\
  no_name_error (fst (process doc_list st)).
Proof.
  revert st. induction doc_list as [|d l IH]; intros st Hs.
  - split; [exact Hs | exact I].
  - rewrite process_cons.
    pose proof (sentence_test_no_name_error d) as Hd.
    destruct (sentence_test d) as [[|]|e]; simpl in *.
    + destruct (loop_body_bound d st Hs) as [Hb Hn].
      destruct (loop_body d st) as [[u|e] st']; simpl in *.
      * apply IH; exact Hb.
      * split; assumption.
    + apply IH; exact Hs.
    + split; assumption.
Qed.

(** X10. A document with a decomposition takes nothing from the
    accumulator it finds: outcome and output are the same whatever [s]
    was, and when the body returns so is the whole state. *)
Theorem decomposition_resets_accumulator
    (items : list (pystr * pyval)) (v : pyval)
    (out : list pystr) (s1 s2 : option pystr) :
  dict_get items k_decomposition = Some v ->
  fst (loop_body (PDict items) (mkState out s1))
  = fst (loop_body (PDict items) (mkState out s2)) /\
  st_out (snd (loop_body (PDict items) (mkState out s1)))
  = st_out (snd (loop_body (PDict items) (mkState out s2))) /\
  (forall u, fst (loop_body (PDict items) (mkState out s1)) = Ok u ->
     snd (loop_body (PDict items) (mkState out s1))
     = snd (loop_body (PDict items) (mkState out s2))).
Proof.
  intros Hd. unfold loop_body, bind, lift, get_s, set_s, write, ret.
  simpl. rewrite Hd. simpl.
  destruct (dict_get items k_dcsId) as [dcsId|]; simpl;
    [|repeat split; discriminate].
  destruct (encodable (py_str dcsId ++ lit ", ")); simpl;
    [|repeat split; discriminate].
  destruct (dict_get items k_text) as [text|]; simpl;
    [|repeat split; discriminate].
  destruct (py_add_str text (lit ", ")) as [field|]; simpl;
    [|repeat split; discriminate].
  destruct (encodable field); simpl; [|repeat split; discriminate].
  repeat split; reflexivity.
Qed.


End FurtherProperties.

(* ------------------------------------------------------------------ *)
(** ** The further properties on the sample documents *)

Lemma malformed_input_writes_nothing_witness :
  @run sample_runtime (PList []) = (Raise TypeError, initial) /\
  @run sample_runtime (PDict [(k_text, PNone)])
  = (Raise (KeyError k_docs), initial) /\
  @run sample_runtime (PDict [(k_docs, PNone)]) = (Raise TypeError, initial) /\
  @run sample_runtime (PDict [(k_docs, PDict [])]) = (Ok tt, initial).
Proof.
  split; [|split; [|split]].
  - apply (proj1 (@malformed_input_writes_nothing sample_runtime (PList []))).
    reflexivity.
  - apply (proj1 (proj2 (@malformed_input_writes_nothing sample_runtime
                           (PDict [(k_text, PNone)])))
             [(k_text, PNone)]); reflexivity.
  - apply (proj2 (proj2 (@malformed_input_writes_nothing sample_runtime
                           (PDict [(k_docs, PNone)])))
             [(k_docs, PNone)] PNone); reflexivity.
  - apply (proj2 (proj2 (@malformed_input_writes_nothing sample_runtime
                           (PDict [(k_docs, PDict [])])))
             [(k_docs, PDict [])] (PDict [])); reflexivity.
Defined.

Lemma ill_typed_document_aborts_witness :
  @run sample_runtime (corpus ([doc_1] ++ PStr (lit "x") :: [doc_bare]))
  = (Raise TypeError,
     mkState [lit "1, "; text_1 ++ lit ", "; lit " gam" ++ [NEWLINE]]
             (Some (lit " gam"))) /\
  @run sample_runtime (corpus ([doc_1] ++ doc_numbered :: [doc_bare]))
  = (Raise AttributeError,
     mkState [lit "1, "; text_1 ++ lit ", "; lit " gam" ++ [NEWLINE]]
             (Some (lit " gam"))).
Proof.
  split.
  - apply (proj1 (@ill_typed_document_aborts sample_runtime [doc_1]
                    (PStr (lit "x")) [doc_bare] _ eq_refl)).
    reflexivity.
  - apply (proj2 (@ill_typed_document_aborts sample_runtime [doc_1]
                    doc_numbered [doc_bare] _ eq_refl)
             [(k_id, PInt 7)] (PInt 7)); reflexivity.
Defined.

Lemma missing_field_partial_record_witness :
  @loop_body sample_runtime (PDict items_no_text) initial
  = (Raise (KeyError k_text), mkState [lit "4, "] None) /\
  @loop_body sample_runtime (PDict items_surrogate) initial
  = (Raise UnicodeEncodeError, initial).
Proof.
  split.
  - apply (proj1 (proj2 (proj2
             (@missing_field_partial_record sample_runtime
                items_no_text (decomposition_value groups_1)
                initial eq_refl)))
             (PInt 4)); reflexivity.
  - apply (proj1 (proj2
             (@missing_field_partial_record sample_runtime
                items_surrogate (decomposition_value groups_1)
                initial eq_refl))
             (PStr [55296%N])); reflexivity.
Defined.

Lemma non_string_root_aborts_witness :
  @loop_body sample_runtime (PDict items_null_root) initial
  = (Raise TypeError,
     mkState [lit "5, "; lit "tat, "] (Some (lit " gam"))).
Proof.
  apply (@non_string_root_aborts sample_runtime items_null_root (PInt 5)
           (lit "tat") [] [[(k_root, PStr (lit "gam"))]] token_null_root []
           groups_1 PNone initial); reflexivity.
Defined.

Lemma lines_equal_sentences_witness :
  newlines (file_text (snd (@run sample_runtime
                              (corpus [doc_1; doc_meta; doc_bare])))) <= 2 /\
  newlines (file_text (snd (@run sample_runtime
                              (corpus [doc_1; doc_meta; doc_bare])))) = 2.
Proof.
  destruct (@lines_equal_sentences sample_runtime
              [doc_1; doc_meta; doc_bare] sample_adds_no_newline eq_refl)
    as [H1 H2].
  split; [exact H1 | exact (H2 eq_refl)].
Defined.

Lemma well_formed_corpus_output_witness :
  fst (@run sample_runtime (corpus [doc_meta; doc_1; PDict items_3]))
  = Ok tt /\
  st_out (snd (@run sample_runtime (corpus [doc_meta; doc_1; PDict items_3])))
  = flat_map (@record_writes sample_runtime) [record_1; record_3] /\
  file_text (snd (@run sample_runtime
                    (corpus [doc_meta; doc_1; PDict items_3])))
  = concat (map (@record_line sample_runtime) [record_1; record_3]).
Proof.
  apply (@well_formed_corpus_output sample_runtime
           [doc_meta; doc_1; PDict items_3] [record_1; record_3]).
  - apply reads_other; [reflexivity|].
    apply reads_sentence;
      [exists items_1; repeat split; reflexivity|].
    apply reads_sentence;
      [exists items_3; repeat split; reflexivity|].
    apply reads_nil.
  - reflexivity.
Defined.

Lemma stale_line_repeated_witness :
  @run sample_runtime (corpus ([doc_1] ++ [doc_bare; doc_bare])) =
  (Ok tt,
   mkState ([lit "1, "; text_1 ++ lit ", "; lit " gam" ++ [NEWLINE]]
              ++ repeat (@to_slp1 sample_runtime (lit " gam") ++ [NEWLINE]) 2)
           (Some (lit " gam"))).
Proof.
  apply (@stale_line_repeated sample_runtime [doc_1] [doc_bare; doc_bare]
           (mkState [lit "1, "; text_1 ++ lit ", "; lit " gam" ++ [NEWLINE]]
                    (Some (lit " gam")))
           (lit " gam")); reflexivity.
Defined.

Lemma accumulator_stays_bound_witness :
  st_s (snd (@process sample_runtime [doc_bare; doc_anonymous]
               (mkState [] (Some (lit " gam"))))) <> None /\
  no_name_error (fst (@process sample_runtime [doc_bare; doc_anonymous]
                        (mkState [] (Some (lit " gam"))))).
Proof.
  apply (@accumulator_stays_bound sample_runtime [doc_bare; doc_anonymous]
           (mkState [] (Some (lit " gam")))).
  simpl. discriminate.
Defined.

Lemma decomposition_resets_accumulator_witness :
  fst (@loop_body sample_runtime (PDict items_1) (mkState [] None))
  = fst (@loop_body sample_runtime (PDict items_1)
           (mkState [] (Some (lit "x")))) /\
  st_out (snd (@loop_body sample_runtime (PDict items_1) (mkState [] None)))
  = st_out (snd (@loop_body sample_runtime (PDict items_1)
                   (mkState [] (Some (lit "x"))))) /\
  snd (@loop_body sample_runtime (PDict items_1) (mkState [] None))
  = snd (@loop_body sample_runtime (PDict items_1)
           (mkState [] (Some (lit "x")))).
Proof.
  destruct (@decomposition_resets_accumulator sample_runtime items_1
              (decomposition_value groups_1) [] None (Some (lit "x"))
              eq_refl) as (H1 & H2 & H3).
  split; [exact H1|]. split; [exact H2|]. exact (H3 tt eq_refl).
Defined.

